(** * Vetur script mode: the virtual project host and its feature gate

    A shallow embedding of the TypeScript language-service host that
    [createLanguageService] builds (the closure over [currentTextDocument],
    [versions], [docs], [files] and [compilerOptions]) and of the feature
    operations of [getJavascriptMode] that drive it.

    The closure's mutable variables become one record, [State], threaded
    explicitly; the document cache [jsDocuments] that the closure is given
    is part of it, for its answers depend on what it was asked before.
    Everything the file imports from elsewhere (node's [path],
    [vscode-uri], the [typescript] library, the document cache, and the
    repository's own [bridge] and [typescript] helper modules) is gathered
    in the class [Env] and stays abstract in every general theorem. *)

From Stdlib Require Import ZArith Ascii String List Lia.
From stdpp Require Import base strings gmap list pretty.

#[local] Set Warnings "-clear-no-such-hyp".

Local Open Scope Z_scope.
Local Open Scope string_scope.
Local Open Scope list_scope.

(** ** JavaScript primitives used by the source *)

(** [_.endsWith(s, target)] of lodash, with the default position. *)
Definition endsWith (s target : string) : bool :=
  let n := String.length s in
  let m := String.length target in
  bool_decide (m ≤ n)%nat &&
  bool_decide (substring (n - m) m s = target).

(** [s.substring(start, end)]: both indices are clamped to the string and
    swapped when they come in the wrong order. *)
Definition js_substring (s : string) (start end_ : Z) : string :=
  let len := Z.of_nat (String.length s) in
  let a := Z.max 0 (Z.min start len) in
  let b := Z.max 0 (Z.min end_ len) in
  substring (Z.to_nat (Z.min a b)) (Z.to_nat (Z.max a b - Z.min a b)) s.

(** [s.slice(1)]. *)
Definition js_slice1 (s : string) : string :=
  match s with
  | EmptyString => EmptyString
  | String _ rest => rest
  end.

(** The version counters are JavaScript numbers, that is IEEE doubles.  On
    the integers [0 .. 2^53] the operation [v + 1] is exact below [2^53] and
    rounds back to [2^53] at [2^53] (ties to even); the counters start at 0
    and only ever see [+ 1], so no other value arises. *)
Definition MAX_SAFE : Z := 2 ^ 53.

Definition number_add1 (v : Z) : Z :=
  if bool_decide (v < MAX_SAFE) then v + 1 else v.

(** [o || 0] for an optional number. *)
Definition or_zero (o : option Z) : Z := default 0 o.

(** ** Data model *)

(** [TextDocument] of vscode-languageserver-types, restricted to what the
    source reads. *)
Record TextDocument := mkTextDocument {
  uri : string;
  languageId : string;
  version : Z;
  getText : string
}.

(** [TextDocument.create(uri, languageId, version, content)]. *)
Definition TextDocument_create (u l : string) (v : Z) (content : string)
  : TextDocument :=
  mkTextDocument u l v content.

(** [ts.Extension]. *)
Inductive Extension := Ts | Tsx | Dts | Js | Jsx.

(** [ts.ResolvedModule]; [None] of [option ResolvedModule] stands for the
    [undefined] of an unresolved import. *)
Record ResolvedModule := mkResolvedModule {
  resolvedFileName : string;
  extension : Extension
}.

(** The two compiler options the source writes after start-up.  All other
    options are fixed once [parseJsonConfigFileContent] has run and are
    part of the ordinary resolver of [Env]. *)
Record CompilerOptions := mkCompilerOptions {
  allowNonTsExtensions : bool;
  allowJs : bool
}.

(** What [ts.sys] shows of the disk: a partial map from paths to file
    contents.  [fileExists] holds exactly where [readFile] yields text;
    every failure of a read shows as [undefined], here [None]. *)
Definition Disk := gmap string string.

Definition fileExists (fs : Disk) (p : string) : bool :=
  bool_decide (is_Some (fs !! p)).

Definition readFile (fs : Disk) (p : string) : option string := fs !! p.

(** [ts.IScriptSnapshot] as the host builds it: the three closures all
    close over one string. *)
Record IScriptSnapshot := mkSnapshot { snapshot_text : string }.

Definition snapshot_getText (s : IScriptSnapshot) (start end_ : Z) : string :=
  js_substring (snapshot_text s) start end_.

Definition snapshot_getLength (s : IScriptSnapshot) : Z :=
  Z.of_nat (String.length (snapshot_text s)).

Definition snapshot_getChangeRange (s : IScriptSnapshot) : option unit := None.

(** ** The environment of the host

    External capabilities.  [isVue] and [parseVue] come from the module
    [./typescript], the three [bridge] constants from [./bridge] and the
    document cache from [../languageModelCache]; like the functions of the
    libraries they are parameters here, and every general theorem holds
    for all of them.

    The document cache is an object with a state of its own: [get] may
    answer from an entry made by an earlier call, and it may make or
    replace an entry.  Its states are the type [DocumentCache]; nothing is
    assumed of them. *)
Class Env := {
  (** [Uri.parse(u).fsPath] *)
  Uri_parse_fsPath : string → string;
  (** [Uri.parse(u).path] *)
  Uri_parse_path : string → string;
  (** [Uri.file(p).fsPath] *)
  Uri_file_fsPath : string → string;
  (** [Uri.file(p).toString()] *)
  Uri_file_toString : string → string;
  path_isAbsolute : string → bool;
  path_dirname : string → string;
  path_join : string → string → string;
  (** [isVue] and [parseVue] of [./typescript] *)
  isVue : string → bool;
  parseVue : string → string;
  (** [bridge.moduleName], [bridge.fileName], [bridge.content] *)
  bridge_moduleName : string;
  bridge_fileName : string;
  bridge_content : string;
  (** The states of the document cache [jsDocuments]. *)
  DocumentCache : Type;
  (** [jsDocuments.get(document)] in a state of the cache: the embedded
      script document it answers with, and the state it is left in. *)
  jsDocuments_get :
    DocumentCache → TextDocument → TextDocument * DocumentCache;
  (** [ts.resolveModuleName(name, containingFile, options, ts.sys).resolvedModule] *)
  ts_resolveModuleName :
    string → string → CompilerOptions → Disk → option ResolvedModule;
  (** [platform() === 'win32'] *)
  IS_WINDOWS : bool
}.

(** ** Host state *)

(** The variables [createLanguageService] closes over, its parameter
    [jsDocuments] among them.  The language service object itself is
    opaque; of the calls the host makes on it only [cleanupSemanticCache()]
    has an effect, recorded as a count. *)
Record State {E : Env} := mkState {
  compilerOptions : CompilerOptions;
  currentTextDocument : option TextDocument;
  versions : gmap string Z;
  docs : gmap string TextDocument;
  files : list string;
  semanticCacheCleanups : nat;
  jsDocuments : DocumentCache
}.

Section Host.
Context {E : Env}.

(** The state when [createLanguageService] returns: [cache] is the
    argument [jsDocuments], [fileNames] and [options] are the two fields
    read from [parsedConfig]. *)
Definition createLanguageService (cache : DocumentCache)
    (fileNames : list string) (options : CompilerOptions) : State :=
  {| compilerOptions :=
       {| allowNonTsExtensions := true; allowJs := allowJs options |};
     currentTextDocument := None;
     versions := ∅;
     docs := ∅;
     files := fileNames;
     semanticCacheCleanups := 0;
     jsDocuments := cache |}.

(** The state with the document cache left in another state. *)
Definition withJsDocuments (st : State) (cache : DocumentCache) : State :=
  {| compilerOptions := compilerOptions st;
     currentTextDocument := currentTextDocument st;
     versions := versions st;
     docs := docs st;
     files := files st;
     semanticCacheCleanups := semanticCacheCleanups st;
     jsDocuments := cache |}.

Definition getFileFsPath (documentUri : string) : string :=
  Uri_parse_fsPath documentUri.

Definition getNormalizedFileFsPath (fileName : string) : string :=
  Uri_file_fsPath fileName.

(** Lines 50-54: "when file is not in language service, add it". *)
Definition addToFiles (st : State) (fileFsPath : string) : list string :=
  if negb (bool_decide (is_Some (docs st !! fileFsPath))) then
    if endsWith fileFsPath ".vue" then files st ++ [fileFsPath]
    else files st
  else files st.

(** The condition of line 55. *)
Definition documentChanged (st : State) (doc : TextDocument) : bool :=
  match currentTextDocument st with
  | None => true
  | Some cur =>
      negb (bool_decide (uri doc = uri cur)) ||
      negb (bool_decide (version doc = version cur))
  end.

(** The condition of line 58. *)
Definition languageIdChanged (lastDoc : option TextDocument)
    (cur : TextDocument) : bool :=
  match lastDoc with
  | None => false
  | Some l => negb (bool_decide (languageId cur = languageId l))
  end.

Definition updateCurrentTextDocument (st : State) (doc : TextDocument)
  : State :=
  let fileFsPath := getFileFsPath (uri doc) in
  let files1 := addToFiles st fileFsPath in
  if documentChanged st doc then
    let '(cur, cache) := jsDocuments_get (jsDocuments st) doc in
    let lastDoc := docs st !! fileFsPath in
    let restart := languageIdChanged lastDoc cur in
    {| compilerOptions :=
         match lastDoc with
         | Some l =>
             if restart then
               {| allowNonTsExtensions :=
                    allowNonTsExtensions (compilerOptions st);
                  allowJs :=
                    negb (bool_decide (languageId l = "typescript")) |}
             else compilerOptions st
         | None => compilerOptions st
         end;
       currentTextDocument := Some cur;
       versions :=
         <[fileFsPath := number_add1 (or_zero (versions st !! fileFsPath))]>
           (versions st);
       docs := <[fileFsPath := cur]> (docs st);
       files := files1;
       semanticCacheCleanups :=
         if restart then S (semanticCacheCleanups st)
         else semanticCacheCleanups st;
       jsDocuments := cache |}
  else
    {| compilerOptions := compilerOptions st;
       currentTextDocument := currentTextDocument st;
       versions := versions st;
       docs := docs st;
       files := files1;
       semanticCacheCleanups := semanticCacheCleanups st;
       jsDocuments := jsDocuments st |}.

(** *** The [ts.LanguageServiceHost] callbacks *)

Definition getCompilationSettings (st : State) : CompilerOptions :=
  compilerOptions st.

Definition getScriptFileNames (st : State) : list string := files st.

Definition getScriptVersion (st : State) (fileName : string) : string :=
  if bool_decide (fileName = bridge_fileName) then "0"
  else
    match versions st !! getNormalizedFileFsPath fileName with
    | Some v => if bool_decide (v = 0) then "0" else pretty v
    | None => "0"
    end.

(** The body of the arrow function mapped over [moduleNames]: what it
    returns, and the state it leaves.  Only the call of [jsDocuments.get]
    on line 114, made when the file is not tracked, changes the state. *)
Definition resolveModuleName (st : State) (fs : Disk)
    (containingFile name : string) : option ResolvedModule * State :=
  if bool_decide (name = bridge_moduleName) then
    (Some {| resolvedFileName := bridge_fileName; extension := Ts |}, st)
  else if path_isAbsolute name || negb (isVue name) then
    (ts_resolveModuleName name containingFile (compilerOptions st) fs, st)
  else
    let joined := path_join (path_dirname containingFile) name in
    let resolved := Uri_file_fsPath joined in
    if fileExists fs resolved then
      let '(doc, st') :=
        match docs st !! resolved with
        | Some d => (d, st)
        | None =>
            let '(d, cache) :=
              jsDocuments_get (jsDocuments st)
                (TextDocument_create (Uri_file_toString joined) "vue" 0
                   (default "" (readFile fs resolved))) in
            (d, withJsDocuments st cache)
        end in
      (Some {| resolvedFileName := resolved;
               extension :=
                 if bool_decide (languageId doc = "typescript") then Ts
                 else Js |},
       st')
    else (None, st).

(** [moduleNames.map(...)]: the names are resolved from left to right,
    each in the state the one before it left. *)
Fixpoint resolveModuleNames (st : State) (fs : Disk)
    (moduleNames : list string) (containingFile : string)
  : list (option ResolvedModule) * State :=
  match moduleNames with
  | [] => ([], st)
  | name :: rest =>
      let '(r, st1) := resolveModuleName st fs containingFile name in
      let '(rs, st2) := resolveModuleNames st1 fs rest containingFile in
      (r :: rs, st2)
  end.

Definition getScriptSnapshot (st : State) (fs : Disk) (fileName : string)
  : IScriptSnapshot :=
  if bool_decide (fileName = bridge_fileName) then
    {| snapshot_text := bridge_content |}
  else
    let normalizedFileFsPath := getNormalizedFileFsPath fileName in
    let text :=
      match docs st !! normalizedFileFsPath with
      | Some doc => getText doc
      | None =>
          match readFile fs normalizedFileFsPath with
          | Some t => if bool_decide (t = "") then "" else t
          | None => ""
          end
      end in
    {| snapshot_text := if isVue fileName then parseVue text else text |}.

End Host.

(** ** The feature operations of [getJavascriptMode] *)

(** *** Protocol types (vscode-languageserver-types) *)

Record Position := mkPosition { line : Z; character : Z }.
Record Range := mkRange { range_start : Position; range_end : Position }.

Inductive DiagnosticSeverity := SeverityError.

Record Diagnostic := mkDiagnostic {
  diag_range : Range;
  diag_severity : DiagnosticSeverity;
  diag_message : string
}.

Inductive CompletionItemKind :=
  | KindKeyword | KindVariable | KindField | KindFunction | KindEnum
  | KindModule | KindClass | KindInterface | KindFile | KindProperty.

Record TextEdit := mkTextEdit { edit_range : Range; newText : string }.

(** The [data] object attached to a completion item for [doResolve]. *)
Record CompletionData := mkCompletionData {
  data_languageId : string;
  data_uri : string;
  data_offset : Z
}.

(** Only [label] is required of a completion item; the other properties
    may be absent. *)
Record CompletionItem := mkCompletionItem {
  item_uri : option string;
  item_position : option Position;
  label : string;
  sortText : option string;
  item_kind : option CompletionItemKind;
  textEdit : option TextEdit;
  data : option CompletionData;
  detail : option string;
  documentation : option string
}.

Record CompletionList := mkCompletionList {
  isIncomplete : bool;
  items : list CompletionItem
}.

Record MarkedString := mkMarkedString { language : string; value : string }.

Record Hover := mkHover {
  contents : list MarkedString;
  hover_range : option Range
}.

Record ParameterInformation := mkParameterInformation {
  param_label : string;
  param_documentation : string
}.

Record SignatureInformation := mkSignatureInformation {
  sig_label : string;
  sig_documentation : option string;
  parameters : list ParameterInformation
}.

Record SignatureHelp := mkSignatureHelp {
  activeSignature : Z;
  activeParameter : Z;
  signatures : list SignatureInformation
}.

Inductive DocumentHighlightKind := HighlightText | HighlightWrite.

Record DocumentHighlight := mkDocumentHighlight {
  highlight_range : Range;
  highlight_kind : DocumentHighlightKind
}.

Record Location := mkLocation { loc_uri : string; loc_range : Range }.

Inductive SymbolKind :=
  | SymVariable | SymFunction | SymEnum | SymModule | SymClass
  | SymInterface | SymMethod | SymProperty.

Record SymbolInformation := mkSymbolInformation {
  sym_name : string;
  sym_kind : SymbolKind;
  sym_location : Location;
  containerName : option string
}.

(** *** Answers of the script compiler service (typescript) *)

Record TextSpan := mkTextSpan { span_start : Z; span_length : Z }.

(** Display parts are kept as the list of their texts. *)
Definition DisplayParts := list string.

Record TsDiagnostic := mkTsDiagnostic {
  tsdiag_span : TextSpan;
  messageText : string
}.

Record CompletionEntry := mkCompletionEntry {
  entry_name : string;
  entry_sortText : string;
  entry_kind : string
}.

Record CompletionEntryDetails := mkCompletionEntryDetails {
  details_displayParts : DisplayParts;
  details_documentation : DisplayParts
}.

Record QuickInfo := mkQuickInfo {
  info_displayParts : DisplayParts;
  info_documentation : DisplayParts;
  info_textSpan : TextSpan
}.

Record SignatureHelpParameter := mkSignatureHelpParameter {
  shp_displayParts : DisplayParts;
  shp_documentation : DisplayParts
}.

Record SignatureHelpItem := mkSignatureHelpItem {
  prefixDisplayParts : DisplayParts;
  shi_parameters : list SignatureHelpParameter;
  separatorDisplayParts : DisplayParts;
  suffixDisplayParts : DisplayParts
}.

Record SignatureHelpItems := mkSignatureHelpItems {
  selectedItemIndex : Z;
  argumentIndex : Z;
  shi_items : list SignatureHelpItem
}.

Record ReferenceEntry := mkReferenceEntry {
  ref_textSpan : TextSpan;
  isWriteAccess : bool
}.

Record DefinitionInfo := mkDefinitionInfo { def_textSpan : TextSpan }.

#[warnings="-register-all"]
Inductive NavigationBarItem :=
  mkNavigationBarItem (text kind : string) (spans : list TextSpan)
    (childItems : list NavigationBarItem).

Definition nav_text (i : NavigationBarItem) : string :=
  match i with mkNavigationBarItem t _ _ _ => t end.
Definition nav_kind (i : NavigationBarItem) : string :=
  match i with mkNavigationBarItem _ k _ _ => k end.
Definition nav_spans (i : NavigationBarItem) : list TextSpan :=
  match i with mkNavigationBarItem _ _ s _ => s end.
Definition nav_childItems (i : NavigationBarItem) : list NavigationBarItem :=
  match i with mkNavigationBarItem _ _ _ c => c end.

(** *** The service as the mode sees it

    The service answers from the host it was created with, so every answer
    is a function of the host state and of the disk, besides the arguments
    of the call.  The class also holds the library functions the adapters
    use on documents and display parts, and the two constants of
    [../nullMode]. *)
Class LanguageService {E : Env} := {
  (** [ls.getProgram().getRootFileNames()] *)
  getRootFileNames : State → Disk → list string;
  getSyntacticDiagnostics : State → Disk → string → list TsDiagnostic;
  getSemanticDiagnostics : State → Disk → string → list TsDiagnostic;
  getCompletionsAtPosition :
    State → Disk → string → Z → option (list CompletionEntry);
  getCompletionEntryDetails :
    State → Disk → string → Z → string → option CompletionEntryDetails;
  getQuickInfoAtPosition : State → Disk → string → Z → option QuickInfo;
  getSignatureHelpItems :
    State → Disk → string → Z → option SignatureHelpItems;
  getOccurrencesAtPosition :
    State → Disk → string → Z → option (list ReferenceEntry);
  getNavigationBarItems :
    State → Disk → string → option (list NavigationBarItem);
  getDefinitionAtPosition :
    State → Disk → string → Z → option (list DefinitionInfo);
  getReferencesAtPosition :
    State → Disk → string → Z → option (list ReferenceEntry);
  (** [document.positionAt], [document.offsetAt] *)
  positionAt : TextDocument → Z → Position;
  offsetAt : TextDocument → Position → Z;
  (** [ts.displayPartsToString], [ts.flattenDiagnosticMessageText] *)
  displayPartsToString : DisplayParts → string;
  flattenDiagnosticMessageText : string → string → string;
  (** [getWordAtText(text, offset, JS_WORD_REGEX)] of [../../utils/strings] *)
  getWordAtText : string → Z → TextSpan;
  NULL_SIGNATURE : SignatureHelp;
  NULL_COMPLETION : CompletionItem
}.

(** The calls a feature operation makes on the service, in order.  Every
    call but [getProgram] names the file it asks about. *)
Inductive ServiceCall :=
  | CallGetProgram
  | CallGetSyntacticDiagnostics (fileName : string)
  | CallGetSemanticDiagnostics (fileName : string)
  | CallGetCompletionsAtPosition (fileName : string) (offset : Z)
  | CallGetCompletionEntryDetails (fileName : string) (offset : Z)
      (name : string)
  | CallGetQuickInfoAtPosition (fileName : string) (offset : Z)
  | CallGetSignatureHelpItems (fileName : string) (offset : Z)
  | CallGetOccurrencesAtPosition (fileName : string) (offset : Z)
  | CallGetNavigationBarItems (fileName : string)
  | CallGetDefinitionAtPosition (fileName : string) (offset : Z)
  | CallGetReferencesAtPosition (fileName : string) (offset : Z).

(** The file a call asks about. *)
Definition call_file (c : ServiceCall) : option string :=
  match c with
  | CallGetProgram => None
  | CallGetSyntacticDiagnostics f | CallGetSemanticDiagnostics f
  | CallGetNavigationBarItems f => Some f
  | CallGetCompletionsAtPosition f _ | CallGetCompletionEntryDetails f _ _
  | CallGetQuickInfoAtPosition f _ | CallGetSignatureHelpItems f _
  | CallGetOccurrencesAtPosition f _ | CallGetDefinitionAtPosition f _
  | CallGetReferencesAtPosition f _ => Some f
  end.

(** How an operation ends: with a value, or with an exception: the
    [TypeError] of a property read on [undefined], or the
    [ReferenceError] of an identifier that is not declared. *)
Inductive Completion (A : Type) :=
  | Returned (a : A)
  | Thrown.
Arguments Returned {A} a.
Arguments Thrown {A}.

(** A computation that talks to the service: the calls made so far and how
    it ended. *)
Definition Svc (A : Type) : Type := list ServiceCall * Completion A.

Definition svc_ret {A} (a : A) : Svc A := ([], Returned a).

Definition svc_throw {A} : Svc A := ([], Thrown).

Definition svc_bind {A B} (m : Svc A) (k : A → Svc B) : Svc B :=
  match m with
  | (calls, Returned a) =>
      let '(calls', r) := k a in ((calls ++ calls')%list, r)
  | (calls, Thrown) => (calls, Thrown)
  end.

Definition svc_call {A} (c : ServiceCall) (answer : A) : Svc A :=
  ([c], Returned answer).

Notation "x ←ˢ m ; k" := (svc_bind m (fun x => k))
  (at level 100, m at next level, right associativity,
   format "x  ←ˢ  m ;  '/' k").

(** What a feature operation leaves behind: the host state after its
    update step, and the service computation that followed. *)
Record Outcome {E : Env} (A : Type) := mkOutcome {
  out_state : State;
  out_run : Svc A
}.
Arguments mkOutcome {E A}.
Arguments out_state {E A}.
Arguments out_run {E A}.

Definition out_calls {E : Env} {A} (o : Outcome A) : list ServiceCall :=
  fst (out_run o).
Definition out_result {E : Env} {A} (o : Outcome A) : Completion A :=
  snd (out_run o).

Fixpoint svc_mapM {A B} (f : A → Svc B) (l : list A) : Svc (list B) :=
  match l with
  | [] => svc_ret []
  | a :: l' =>
      b ←ˢ f a;
      bs ←ˢ svc_mapM f l';
      svc_ret (b :: bs)
  end.

(** The string ['\n']. *)
Definition newline : string := String (Ascii.ascii_of_nat 10) EmptyString.

Section Mode.
Context {E : Env} {L : LanguageService}.

Definition getFilePath (documentUri : string) : string :=
  if IS_WINDOWS then js_slice1 (Uri_parse_path documentUri)
  else Uri_parse_path documentUri.

Definition languageServiceIncludesFile (st : State) (fs : Disk)
    (documentUri : string) : Svc bool :=
  filePaths ←ˢ svc_call CallGetProgram (getRootFileNames st fs);
  svc_ret (bool_decide (getFilePath documentUri ∈ filePaths)).

(** [javascript.ts] uses an identifier [currentTextDocument] and never
    declares it: line 33 takes only [languageService] and
    [updateCurrentTextDocument] out of what [createLanguageService]
    returns, and the variable of that name is local to that function.
    Evaluating the identifier throws a [ReferenceError]. *)
Definition currentTextDocument_reference : Completion TextDocument := Thrown.

Definition read_currentTextDocument : Svc TextDocument :=
  ([], currentTextDocument_reference).

Definition convertRange (document : TextDocument) (span : TextSpan) : Range :=
  {| range_start := positionAt document (span_start span);
     range_end := positionAt document (span_start span + span_length span) |}.

Definition convertKind (kind : string) : CompletionItemKind :=
  if bool_decide (kind = "primitive type") || bool_decide (kind = "keyword")
  then KindKeyword
  else if bool_decide (kind = "var") || bool_decide (kind = "local var")
  then KindVariable
  else if bool_decide (kind = "property") || bool_decide (kind = "getter")
          || bool_decide (kind = "setter")
  then KindField
  else if bool_decide (kind = "function") || bool_decide (kind = "method")
          || bool_decide (kind = "construct") || bool_decide (kind = "call")
          || bool_decide (kind = "index")
  then KindFunction
  else if bool_decide (kind = "enum") then KindEnum
  else if bool_decide (kind = "module") then KindModule
  else if bool_decide (kind = "class") then KindClass
  else if bool_decide (kind = "interface") then KindInterface
  else if bool_decide (kind = "warning") then KindFile
  else KindProperty.

Definition convertSymbolKind (kind : string) : SymbolKind :=
  if bool_decide (kind = "var") || bool_decide (kind = "local var")
     || bool_decide (kind = "const")
  then SymVariable
  else if bool_decide (kind = "function")
          || bool_decide (kind = "local function")
  then SymFunction
  else if bool_decide (kind = "enum") then SymEnum
  else if bool_decide (kind = "module") then SymModule
  else if bool_decide (kind = "class") then SymClass
  else if bool_decide (kind = "interface") then SymInterface
  else if bool_decide (kind = "method") then SymMethod
  else if bool_decide (kind = "property") || bool_decide (kind = "getter")
          || bool_decide (kind = "setter")
  then SymProperty
  else SymVariable.

Definition doValidation (st : State) (fs : Disk) (doc : TextDocument)
  : Outcome (list Diagnostic) :=
  let st' := updateCurrentTextDocument st doc in
  mkOutcome st' (
    included ←ˢ languageServiceIncludesFile st' fs (uri doc);
    if negb included then svc_ret []
    else
      let fileFsPath := getFileFsPath (uri doc) in
      syntactic ←ˢ svc_call (CallGetSyntacticDiagnostics fileFsPath)
                     (getSyntacticDiagnostics st' fs fileFsPath);
      semantic ←ˢ svc_call (CallGetSemanticDiagnostics fileFsPath)
                    (getSemanticDiagnostics st' fs fileFsPath);
      svc_mapM
        (fun diag =>
           document ←ˢ read_currentTextDocument;
           svc_ret {| diag_range := convertRange document (tsdiag_span diag);
                      diag_severity := SeverityError;
                      diag_message :=
                        flattenDiagnosticMessageText (messageText diag)
                          newline |})
        (syntactic ++ semantic)%list).

Definition emptyCompletionList : CompletionList :=
  {| isIncomplete := false; items := [] |}.

Definition doComplete (st : State) (fs : Disk) (doc : TextDocument)
    (position : Position) : Outcome CompletionList :=
  let st' := updateCurrentTextDocument st doc in
  mkOutcome st' (
    included ←ˢ languageServiceIncludesFile st' fs (uri doc);
    if negb included then svc_ret emptyCompletionList
    else
      let fileFsPath := getFileFsPath (uri doc) in
      document ←ˢ read_currentTextDocument;
      let offset := offsetAt document position in
      completions ←ˢ svc_call (CallGetCompletionsAtPosition fileFsPath offset)
                       (getCompletionsAtPosition st' fs fileFsPath offset);
      match completions with
      | None => svc_ret emptyCompletionList
      | Some entries =>
          document ←ˢ read_currentTextDocument;
          let replaceRange :=
            convertRange document (getWordAtText (getText document) offset) in
          svc_ret
            {| isIncomplete := false;
               items :=
                 map (fun entry =>
                        {| item_uri := Some (uri doc);
                           item_position := Some position;
                           label := entry_name entry;
                           sortText := Some (entry_sortText entry);
                           item_kind := Some (convertKind (entry_kind entry));
                           textEdit :=
                             Some {| edit_range := replaceRange;
                                     newText := entry_name entry |};
                           data :=
                             Some {| data_languageId := "javascript";
                                     data_uri := uri doc;
                                     data_offset := offset |};
                           detail := None;
                           documentation := None |})
                     entries |}
      end).

Definition doResolve (st : State) (fs : Disk) (doc : TextDocument)
    (item : CompletionItem) : Outcome CompletionItem :=
  let st' := updateCurrentTextDocument st doc in
  mkOutcome st' (
    included ←ˢ languageServiceIncludesFile st' fs (uri doc);
    if negb included then svc_ret NULL_COMPLETION
    else
      let fileFsPath := getFileFsPath (uri doc) in
      match data item with
      | None => svc_throw
      | Some d =>
          details ←ˢ svc_call
                       (CallGetCompletionEntryDetails fileFsPath
                          (data_offset d) (label item))
                       (getCompletionEntryDetails st' fs fileFsPath
                          (data_offset d) (label item));
          match details with
          | Some det =>
              svc_ret
                {| item_uri := item_uri item;
                   item_position := item_position item;
                   label := label item;
                   sortText := sortText item;
                   item_kind := item_kind item;
                   textEdit := textEdit item;
                   data := None;
                   detail :=
                     Some (displayPartsToString (details_displayParts det));
                   documentation :=
                     Some (displayPartsToString
                             (details_documentation det)) |}
          | None => svc_ret item
          end
      end).

Definition emptyHover : Hover := {| contents := []; hover_range := None |}.

Definition doHover (st : State) (fs : Disk) (doc : TextDocument)
    (position : Position) : Outcome Hover :=
  let st' := updateCurrentTextDocument st doc in
  mkOutcome st' (
    included ←ˢ languageServiceIncludesFile st' fs (uri doc);
    if negb included then svc_ret emptyHover
    else
      let fileFsPath := getFileFsPath (uri doc) in
      document ←ˢ read_currentTextDocument;
      let offset := offsetAt document position in
      info ←ˢ svc_call (CallGetQuickInfoAtPosition fileFsPath offset)
                (getQuickInfoAtPosition st' fs fileFsPath offset);
      match info with
      | Some info =>
          let display := displayPartsToString (info_displayParts info) in
          let doc := displayPartsToString (info_documentation info) in
          let contents :=
            if bool_decide (doc = "") then [display]
            else [doc; newline; display] in
          let markedContents :=
            map (fun c => {| language := "js"; value := c |}) contents in
          document ←ˢ read_currentTextDocument;
          svc_ret {| contents := markedContents;
                     hover_range :=
                       Some (convertRange document (info_textSpan info)) |}
      | None => svc_ret emptyHover
      end).

(** The label the two nested [forEach] loops of [doSignatureHelp] build
    from the parameters: their texts, the separator between neighbours. *)
Fixpoint parametersLabel (separator : string)
    (ps : list SignatureHelpParameter) : string :=
  match ps with
  | [] => ""
  | p :: rest =>
      match rest with
      | [] => displayPartsToString (shp_displayParts p)
      | _ :: _ =>
          displayPartsToString (shp_displayParts p) +:+ separator
            +:+ parametersLabel separator rest
      end
  end.

Definition convertSignature (item : SignatureHelpItem)
  : SignatureInformation :=
  {| sig_label :=
       displayPartsToString (prefixDisplayParts item)
         +:+ parametersLabel
               (displayPartsToString (separatorDisplayParts item))
               (shi_parameters item)
         +:+ displayPartsToString (suffixDisplayParts item);
     sig_documentation := None;
     parameters :=
       map (fun p =>
              {| param_label := displayPartsToString (shp_displayParts p);
                 param_documentation :=
                   displayPartsToString (shp_documentation p) |})
           (shi_parameters item) |}.

Definition doSignatureHelp (st : State) (fs : Disk) (doc : TextDocument)
    (position : Position) : Outcome SignatureHelp :=
  let st' := updateCurrentTextDocument st doc in
  mkOutcome st' (
    included ←ˢ languageServiceIncludesFile st' fs (uri doc);
    if negb included then svc_ret NULL_SIGNATURE
    else
      let fileFsPath := getFileFsPath (uri doc) in
      document ←ˢ read_currentTextDocument;
      let offset := offsetAt document position in
      signHelp ←ˢ svc_call (CallGetSignatureHelpItems fileFsPath offset)
                    (getSignatureHelpItems st' fs fileFsPath offset);
      match signHelp with
      | None => svc_ret NULL_SIGNATURE
      | Some signHelp =>
          svc_ret {| activeSignature := selectedItemIndex signHelp;
                     activeParameter := argumentIndex signHelp;
                     signatures := map convertSignature (shi_items signHelp) |}
      end).

Definition findDocumentHighlight (st : State) (fs : Disk)
    (doc : TextDocument) (position : Position)
  : Outcome (list DocumentHighlight) :=
  let st' := updateCurrentTextDocument st doc in
  mkOutcome st' (
    included ←ˢ languageServiceIncludesFile st' fs (uri doc);
    if negb included then svc_ret []
    else
      let fileFsPath := getFileFsPath (uri doc) in
      document ←ˢ read_currentTextDocument;
      let offset := offsetAt document position in
      occurrences ←ˢ svc_call (CallGetOccurrencesAtPosition fileFsPath offset)
                       (getOccurrencesAtPosition st' fs fileFsPath offset);
      match occurrences with
      | Some occurrences =>
          svc_mapM
            (fun entry =>
               document ←ˢ read_currentTextDocument;
               svc_ret {| highlight_range :=
                            convertRange document (ref_textSpan entry);
                          highlight_kind :=
                            if isWriteAccess entry then HighlightWrite
                            else HighlightText |})
            occurrences
      | None => svc_ret []
      end).

(** The closure [collectSymbols] of [findDocumentSymbols].  Its two
    captured variables, the array [result] and the object [existing], are
    threaded as a pair; [containerLabel] is its optional second argument.
    Reading [item.spans[0].start] throws when [spans] is empty, and the
    object literal of a new symbol reads [currentTextDocument]. *)
Fixpoint collectSymbols (docUri : string)
    (item : NavigationBarItem) (containerLabel : option string)
    (acc : list SymbolInformation * gset string)
  : Completion (list SymbolInformation * gset string) :=
  match item with
  | mkNavigationBarItem text kind spans childItems =>
      match spans with
      | [] => Thrown
      | span0 :: _ =>
          let sig := text +:+ kind +:+ pretty (span_start span0) in
          let visited :=
            if negb (bool_decide (kind = "script"))
               && negb (bool_decide (sig ∈ snd acc))
            then
              match currentTextDocument_reference with
              | Returned document =>
                  Returned
                    ((fst acc ++
                        [ {| sym_name := text;
                             sym_kind := convertSymbolKind kind;
                             sym_location :=
                               {| loc_uri := docUri;
                                  loc_range := convertRange document span0 |};
                             containerName := containerLabel |} ])%list,
                     {[ sig ]} ∪ snd acc,
                     Some text)
              | Thrown => Thrown
              end
            else Returned (fst acc, snd acc, containerLabel) in
          match visited with
          | Thrown => Thrown
          | Returned (result, existing, containerLabel') =>
              (fix children (cs : list NavigationBarItem)
                   (acc : list SymbolInformation * gset string) :=
                 match cs with
                 | [] => Returned acc
                 | child :: cs' =>
                     match collectSymbols docUri child containerLabel' acc with
                     | Returned acc' => children cs' acc'
                     | Thrown => Thrown
                     end
                 end) childItems (result, existing)
          end
      end
  end.

(** [items.forEach(item => collectSymbols(item))]. *)
Fixpoint collectAll (docUri : string) (items : list NavigationBarItem)
    (acc : list SymbolInformation * gset string)
  : Completion (list SymbolInformation * gset string) :=
  match items with
  | [] => Returned acc
  | item :: rest =>
      match collectSymbols docUri item None acc with
      | Returned acc' => collectAll docUri rest acc'
      | Thrown => Thrown
      end
  end.

Definition findDocumentSymbols (st : State) (fs : Disk) (doc : TextDocument)
  : Outcome (list SymbolInformation) :=
  let st' := updateCurrentTextDocument st doc in
  mkOutcome st' (
    included ←ˢ languageServiceIncludesFile st' fs (uri doc);
    if negb included then svc_ret []
    else
      let fileFsPath := getFileFsPath (uri doc) in
      navItems ←ˢ svc_call (CallGetNavigationBarItems fileFsPath)
                    (getNavigationBarItems st' fs fileFsPath);
      match navItems with
      | Some navItems =>
          match collectAll (uri doc) navItems ([], ∅) with
          | Returned (result, _) => svc_ret result
          | Thrown => svc_throw
          end
      | None => svc_ret []
      end).

Definition findDefinition (st : State) (fs : Disk) (doc : TextDocument)
    (position : Position) : Outcome (list Location) :=
  let st' := updateCurrentTextDocument st doc in
  mkOutcome st' (
    included ←ˢ languageServiceIncludesFile st' fs (uri doc);
    if negb included then svc_ret []
    else
      let fileFsPath := getFileFsPath (uri doc) in
      document ←ˢ read_currentTextDocument;
      let offset := offsetAt document position in
      definition ←ˢ svc_call (CallGetDefinitionAtPosition fileFsPath offset)
                      (getDefinitionAtPosition st' fs fileFsPath offset);
      match definition with
      | None => svc_ret []
      | Some definition =>
          svc_mapM
            (fun d =>
               document ←ˢ read_currentTextDocument;
               svc_ret {| loc_uri := uri doc;
                          loc_range :=
                            convertRange document (def_textSpan d) |})
            definition
      end).

Definition findReferences (st : State) (fs : Disk) (doc : TextDocument)
    (position : Position) : Outcome (list Location) :=
  let st' := updateCurrentTextDocument st doc in
  mkOutcome st' (
    included ←ˢ languageServiceIncludesFile st' fs (uri doc);
    if negb included then svc_ret []
    else
      let fileFsPath := getFileFsPath (uri doc) in
      document ←ˢ read_currentTextDocument;
      let offset := offsetAt document position in
      references ←ˢ svc_call (CallGetReferencesAtPosition fileFsPath offset)
                      (getReferencesAtPosition st' fs fileFsPath offset);
      match references with
      | Some references =>
          svc_mapM
            (fun d =>
               document ←ˢ read_currentTextDocument;
               svc_ret {| loc_uri := uri doc;
                          loc_range :=
                            convertRange document (ref_textSpan d) |})
            references
      | None => svc_ret []
      end).

End Mode.

(** ** Sessions

    What can happen to a host between its creation and any later moment:
    the mode calls [updateCurrentTextDocument], the service calls the host
    back, and the document cache changes behind the host's back (its
    clean-up timer runs, the mode calls [onDocumentRemoved], another
    callback asks it for a document).  Of the callbacks listed here only
    [resolveModuleNames] leaves another state than it found, and that in
    the document cache alone; [getScriptKind], which asks the cache in the
    same way, is one of the callers that [HostCacheChanged] stands for. *)
Section Sessions.
Context {E : Env}.

Inductive HostCall :=
  | HostUpdate (doc : TextDocument)
  | HostGetCompilationSettings
  | HostGetScriptFileNames
  | HostGetScriptVersion (fileName : string)
  | HostResolveModuleNames (fs : Disk) (moduleNames : list string)
      (containingFile : string)
  | HostGetScriptSnapshot (fs : Disk) (fileName : string)
  | HostCacheChanged (cache : DocumentCache).

Definition hostStep (st : State) (c : HostCall) : State :=
  match c with
  | HostUpdate doc => updateCurrentTextDocument st doc
  | HostResolveModuleNames fs moduleNames containingFile =>
      snd (resolveModuleNames st fs moduleNames containingFile)
  | HostCacheChanged cache => withJsDocuments st cache
  | HostGetCompilationSettings
  | HostGetScriptFileNames
  | HostGetScriptVersion _
  | HostGetScriptSnapshot _ _ => st
  end.

Definition session (st : State) (calls : list HostCall) : State :=
  fold_left hostStep calls st.

(** The candidate path of a relative import, lines 110-111. *)
Definition candidatePath (containingFile name : string) : string :=
  Uri_file_fsPath (path_join (path_dirname containingFile) name).

(** The dialect the resolver reports for a script document, line 117. *)
Definition extensionOf (doc : TextDocument) : Extension :=
  if bool_decide (languageId doc = "typescript") then Ts else Js.

(** The document the resolver builds from the disk for a file that is not
    tracked and hands to the document cache, line 114. *)
Definition diskDocument (containingFile name text : string) : TextDocument :=
  TextDocument_create
    (Uri_file_toString (path_join (path_dirname containingFile) name))
    "vue" 0 text.

(** The script document that the cache of a state answers with. *)
Definition cachedScript (st : State) (doc : TextDocument) : TextDocument :=
  fst (jsDocuments_get (jsDocuments st) doc).

(** The counter stored for a path, 0 when there is none:
    [versions.get(fileFsPath) || 0]. *)
Definition versionOf (st : State) (fileFsPath : string) : Z :=
  or_zero (versions st !! fileFsPath).

(** States in which the current document is the tracked entry of its own
    path, as the two assignments of lines 56 and 65 leave it. *)
Definition currentIsTracked (st : State) : Prop :=
  ∀ cur, currentTextDocument st = Some cur →
    docs st !! getFileFsPath (uri cur) = Some cur.

(** States in which every tracked document with a [.vue] path is a root
    file. *)
Definition trackedVueInRoot (st : State) : Prop :=
  ∀ (p : string) (d : TextDocument),
    docs st !! p = Some d → endsWith p ".vue" = true → p ∈ files st.

(** States whose root file list is the configured one followed by paths
    that updates appended, each of them once and each of them tracked. *)
Definition appendedOnce (fileNames : list string) (st : State) : Prop :=
  ∃ added : list string,
    files st = fileNames ++ added
    ∧ NoDup added
    ∧ ∀ p, p ∈ added → is_Some (docs st !! p).

(** What the mode can rely on from the document cache: whatever state it
    is in, the embedded document it answers with has the URI and the
    version of the document it was asked for. *)
Definition cacheKeepsIdentity : Prop :=
  ∀ (cache : DocumentCache) (doc : TextDocument),
    uri (fst (jsDocuments_get cache doc)) = uri doc
    ∧ version (fst (jsDocuments_get cache doc)) = version doc.

(** Two states that differ at most in the state of the document cache. *)
Definition sameButCache (st1 st2 : State) : Prop :=
  compilerOptions st1 = compilerOptions st2
  ∧ currentTextDocument st1 = currentTextDocument st2
  ∧ versions st1 = versions st2
  ∧ docs st1 = docs st2
  ∧ files st1 = files st2
  ∧ semanticCacheCleanups st1 = semanticCacheCleanups st2.

(** A cache that answers from the entry it has: asked for a document
    with the URI, version and languageId of the one it was asked for just
    before, it gives the same script document again, whatever the text. *)
Definition cacheReusesEntry : Prop :=
  ∀ (cache : DocumentCache) (d1 d2 : TextDocument),
    uri d1 = uri d2 → version d1 = version d2 →
    languageId d1 = languageId d2 →
    fst (jsDocuments_get (snd (jsDocuments_get cache d1)) d2)
    = fst (jsDocuments_get cache d1).

(** The paths that the updates among a list of host calls are for. *)
Definition updatedPaths (calls : list HostCall) : list string :=
  omap (fun c =>
          match c with
          | HostUpdate doc => Some (getFileFsPath (uri doc))
          | _ => None
          end)
       calls.

(** Every script document that the cache hands to an accepted update of
    the session is of the dialect [l]. *)
Fixpoint updatesBring (l : string) (st : State) (calls : list HostCall)
  : Prop :=
  match calls with
  | [] => True
  | c :: rest =>
      match c with
      | HostUpdate doc =>
          documentChanged st doc = true → languageId (cachedScript st doc) = l
      | _ => True
      end
      ∧ updatesBring l (hostStep st c) rest
  end.

End Sessions.

(** ** A sample environment

    One instance of [Env] and one of [LanguageService], to run the host on
    concrete inputs.  It behaves as the real collaborators do on the inputs
    used below:
    - [Uri.parse('file:///p/a.vue').fsPath] and [.path] are ['/p/a.vue'],
      [Uri.file(p).fsPath] is [p] for a normalised POSIX path;
    - [path.dirname('/p/a.vue')] is ['/p'] and
      [path.join('/p', './b.vue')] is ['/p/b.vue'];
    - [isVue] recognises the extension [.vue];
    - the embedded script document of a document has its URI and its
      version ([TextDocument.create] with [document.uri] and
      [document.version]), and the languageId [typescript] when the script
      tag says so, [javascript] otherwise;
    - the document cache keeps one entry per URI; [get] answers from the
      entry when it was made for the same version and languageId, and
      otherwise makes the embedded document anew and replaces the entry
      (the real cache also drops entries by age and number, which the
      sample never does);
    - the program of the service has the host's file list as its roots. *)
Module Sample.

Definition stripPrefix (p s : string) : string :=
  if String.prefix p s then
    substring (String.length p) (String.length s - String.length p) s
  else s.

(** [Some d] when [s] contains a slash, [d] being what precedes the last. *)
Fixpoint beforeLastSlash (s : string) : option string :=
  match s with
  | EmptyString => None
  | String c rest =>
      match beforeLastSlash rest with
      | Some d => Some (String c d)
      | None => if bool_decide (c = "/"%char) then Some "" else None
      end
  end.

Definition dirname (s : string) : string :=
  match beforeLastSlash s with
  | Some d => if bool_decide (d = "") then "/" else d
  | None => "."
  end.

Definition join (dir name : string) : string :=
  dir +:+ "/" +:+ stripPrefix "./" name.

Definition embeddedScript (d : TextDocument) : TextDocument :=
  {| uri := uri d;
     languageId :=
       if String.prefix "<script lang=ts>" (getText d) then "typescript"
       else "javascript";
     version := version d;
     getText := getText d |}.

(** The cache: for each URI the document its entry was made from. *)
Definition cacheGet (cache : gmap string TextDocument) (doc : TextDocument)
  : TextDocument * gmap string TextDocument :=
  match cache !! uri doc with
  | Some entry =>
      if bool_decide (uri entry = uri doc)
         && bool_decide (version entry = version doc)
         && bool_decide (languageId entry = languageId doc)
      then (embeddedScript entry, cache)
      else (embeddedScript doc, <[uri doc := doc]> cache)
  | None => (embeddedScript doc, <[uri doc := doc]> cache)
  end.

Definition ordinaryResolve (name containingFile : string)
    (options : CompilerOptions) (fs : Disk) : option ResolvedModule :=
  let base := join (dirname containingFile) name in
  if fileExists fs (base +:+ ".ts") then
    Some {| resolvedFileName := base +:+ ".ts"; extension := Ts |}
  else if fileExists fs (base +:+ ".js") then
    Some {| resolvedFileName := base +:+ ".js"; extension := Js |}
  else None.

Definition env : Env :=
  {| Uri_parse_fsPath := stripPrefix "file://";
     Uri_parse_path := stripPrefix "file://";
     Uri_file_fsPath := fun p => p;
     Uri_file_toString := fun p => "file://" +:+ p;
     path_isAbsolute := String.prefix "/";
     path_dirname := dirname;
     path_join := join;
     isVue := fun f => endsWith f ".vue";
     parseVue :=
       fun t => if bool_decide (t = "") then "export default {};" else t;
     bridge_moduleName := "vue-editor-bridge";
     bridge_fileName := "vue-temp/vue-editor-bridge.ts";
     bridge_content := "import Vue from 'vue'; export default Vue;";
     DocumentCache := gmap string TextDocument;
     jsDocuments_get := cacheGet;
     ts_resolveModuleName := ordinaryResolve;
     IS_WINDOWS := false |}.

Definition service : LanguageService (E:=env) :=
  {| getRootFileNames := fun st _ => files st;
     getSyntacticDiagnostics := fun _ _ _ => [];
     getSemanticDiagnostics := fun _ _ _ => [];
     getCompletionsAtPosition := fun _ _ _ _ => None;
     getCompletionEntryDetails := fun _ _ _ _ _ => None;
     getQuickInfoAtPosition := fun _ _ _ _ => None;
     getSignatureHelpItems := fun _ _ _ _ => None;
     getOccurrencesAtPosition := fun _ _ _ _ => None;
     getNavigationBarItems := fun _ _ _ => None;
     getDefinitionAtPosition := fun _ _ _ _ => None;
     getReferencesAtPosition := fun _ _ _ _ => None;
     positionAt := fun _ offset => {| line := 0; character := offset |};
     offsetAt := fun _ position => character position;
     displayPartsToString := fun parts => foldr append "" parts;
     flattenDiagnosticMessageText := fun message _ => message;
     getWordAtText :=
       fun _ offset => {| span_start := offset; span_length := 0 |};
     NULL_SIGNATURE :=
       {| activeSignature := 0; activeParameter := 0; signatures := [] |};
     NULL_COMPLETION :=
       {| item_uri := None; item_position := None; label := "";
          sortText := None; item_kind := None; textEdit := None;
          data := None; detail := None; documentation := None |} |}.

Definition options : CompilerOptions :=
  {| allowNonTsExtensions := true; allowJs := true |}.

(** Two mixed-content documents of one directory, [a] importing [b]. *)
Definition aPath : string := "/p/a.vue".
Definition bPath : string := "/p/b.vue".
Definition aText : string := "<script>import b from './b.vue'</script>".
Definition bText : string := "<script lang=ts>export default {}</script>".

Definition docA : TextDocument :=
  {| uri := "file:///p/a.vue"; languageId := "vue"; version := 1;
     getText := aText |}.

Definition docA_ts : TextDocument :=
  {| uri := "file:///p/a.vue"; languageId := "vue"; version := 2;
     getText := "<script lang=ts>import b from './b.vue'</script>" |}.


Definition docB : TextDocument :=
  {| uri := "file:///p/b.vue"; languageId := "vue"; version := 1;
     getText := bText |}.

(** [b] as the editor holds it, edited to an untyped script block. *)
Definition docB_js : TextDocument :=
  {| uri := "file:///p/b.vue"; languageId := "vue"; version := 7;
     getText := "<script>export default {}</script>" |}.

Definition docJs : TextDocument :=
  {| uri := "file:///p/x.js"; languageId := "javascript"; version := 1;
     getText := "export default 1" |}.

Definition disk : Disk := {[ aPath := aText; bPath := bText ]}.

(** The disk after [b.vue] was rewritten with an untyped script. *)
Definition bTextUntyped : string := "<script>export default {}</script>".
Definition diskLater : Disk := {[ aPath := aText; bPath := bTextUntyped ]}.

(** A workspace whose configuration found no file, with a document cache
    that has no entry. *)
Definition emptyProject : State (E:=env) :=
  createLanguageService (E:=env) ∅ [] options.

(** A workspace whose configuration found [a.vue]: the [vue] extension is
    among the extra extensions given to [parseJsonConfigFileContent]. *)
Definition configuredProject : State (E:=env) :=
  createLanguageService (E:=env) ∅ [aPath] options.

End Sample.

(** ** The rest of the host and of the mode *)

(** [ts.ScriptKind]. *)
Inductive ScriptKind :=
  | ScriptKindUnknown | ScriptKindJS | ScriptKindJSX | ScriptKindTS
  | ScriptKindTSX.

(** What [getScriptKind] hands back: a script kind, or, for the bridge
    file, the value [ts.Extension.Ts] that line 91 returns in its place. *)
Inductive ScriptKindAnswer :=
  | AnswerScriptKind (k : ScriptKind)
  | AnswerExtension (e : Extension).

(** A value of a formatting option. *)
Inductive IndentStyle := IndentStyleNone | IndentStyleBlock | IndentStyleSmart.

Inductive JsValue :=
  | VUndefined
  | VBool (b : bool)
  | VNumber (z : Z)
  | VString (s : string)
  | VIndentStyle (i : IndentStyle).

(** [FormattingOptions] of the protocol, with the extra key
    [scriptInitialIndent] that [format] reads for its truth value. *)
Record FormattingOptions := mkFormattingOptions {
  tabSize : Z;
  insertSpaces : bool;
  scriptInitialIndent : bool
}.

(** [ts.TextChange]. *)
Record TextChange := mkTextChange {
  change_span : TextSpan;
  change_newText : string
}.

(** The argument of [configure]: [options.vetur.format.js], each level of
    which may be missing. *)
Record VeturFormat := mkVeturFormat { format_js : option (gmap string JsValue) }.
Record VeturOptions := mkVeturOptions { vetur_format : option VeturFormat }.
Record ModeOptions := mkModeOptions { vetur : option VeturOptions }.

(** The variable [settings] of [getJavascriptMode]: an object whose only
    property ever written is [format]. *)
Record ModeSettings := mkModeSettings {
  settings_format : option (gmap string JsValue)
}.

(** [let settings: any = {}]. *)
Definition initialSettings : ModeSettings := {| settings_format := None |}.

(** [configure]: reading [.js] of a missing [format] throws. *)
Definition configure (settings : ModeSettings) (options : ModeOptions)
  : Completion ModeSettings :=
  match vetur options with
  | Some v =>
      match vetur_format v with
      | Some f => Returned {| settings_format := format_js f |}
      | None => Thrown
      end
  | None => Returned settings
  end.

(** The object literal [defaultJsFormattingOptions]. *)
Definition defaultJsFormattingOptions (options : FormattingOptions)
    (initialIndentLevel : Z) : gmap string JsValue :=
  list_to_map
    [ ("ConvertTabsToSpaces", VBool (insertSpaces options));
      ("TabSize", VNumber (tabSize options));
      ("IndentSize", VNumber (tabSize options));
      ("IndentStyle", VIndentStyle IndentStyleSmart);
      ("NewLineCharacter", VString newline);
      ("BaseIndentSize", VNumber (tabSize options * initialIndentLevel));
      ("InsertSpaceAfterCommaDelimiter", VBool true);
      ("InsertSpaceAfterSemicolonInForStatements", VBool true);
      ("InsertSpaceAfterKeywordsInControlFlowStatements", VBool true);
      ("InsertSpaceAfterFunctionKeywordForAnonymousFunctions", VBool true);
      ("InsertSpaceAfterOpeningAndBeforeClosingNonemptyParenthesis",
       VBool false);
      ("InsertSpaceAfterOpeningAndBeforeClosingNonemptyBrackets",
       VBool false);
      ("InsertSpaceAfterOpeningAndBeforeClosingTemplateStringBraces",
       VBool false);
      ("InsertSpaceBeforeFunctionParenthesis", VBool true);
      ("InsertSpaceBeforeAndAfterBinaryOperators", VBool true);
      ("PlaceOpenBraceOnNewLineForControlBlocks", VBool false);
      ("PlaceOpenBraceOnNewLineForFunctions", VBool false) ].

(** [_.assign(defaultJsFormattingOptions, formatSettings)]: every own
    property of the source is written over the target; a missing source is
    skipped. *)
Definition convertOptions (options : FormattingOptions)
    (formatSettings : option (gmap string JsValue)) (initialIndentLevel : Z)
  : gmap string JsValue :=
  match formatSettings with
  | Some overrides => overrides ∪ defaultJsFormattingOptions options initialIndentLevel
  | None => defaultJsFormattingOptions options initialIndentLevel
  end.

(** The test of line 284. *)
Definition editInRange (start end_ : Z) (edit : TextChange) : bool :=
  bool_decide (start ≤ span_start (change_span edit))%Z
  && bool_decide
       (span_start (change_span edit) + span_length (change_span edit)
        ≤ end_)%Z.

Section HostRest.
Context {E : Env}.

(** Two collaborators that only [getScriptKind] needs:
    [ts.getScriptKindFromFileName], and what the document cache, in a
    given state, makes of a document created with the [undefined] that
    [ts.sys.readFile] gives for a file it cannot read (the document is
    determined by its URI). *)
Variable getScriptKindFromFileName : string → ScriptKind.
Variable unreadableDocument :
  DocumentCache → string → Completion TextDocument * DocumentCache.

(** What [getScriptKind] returns, and the state it leaves: like the
    resolver it asks the document cache when the file is not tracked. *)
Definition getScriptKind (st : State) (fs : Disk) (fileName : string)
  : Completion ScriptKindAnswer * State :=
  if isVue fileName then
    let uriString := Uri_file_toString fileName in
    let fileName' := Uri_file_fsPath fileName in
    let '(doc, st') :=
      match docs st !! fileName' with
      | Some d => (Returned d, st)
      | None =>
          match readFile fs fileName' with
          | Some text =>
              let '(d, cache) :=
                jsDocuments_get (jsDocuments st)
                  (TextDocument_create uriString "vue" 0 text) in
              (Returned d, withJsDocuments st cache)
          | None =>
              let '(d, cache) :=
                unreadableDocument (jsDocuments st) uriString in
              (d, withJsDocuments st cache)
          end
      end in
    match doc with
    | Returned d =>
        (Returned
           (AnswerScriptKind
              (if bool_decide (languageId d = "typescript") then ScriptKindTS
               else ScriptKindJS)),
         st')
    | Thrown => (Thrown, st')
    end
  else if bool_decide (fileName = bridge_fileName) then
    (Returned (AnswerExtension Ts), st)
  else (Returned (AnswerScriptKind (getScriptKindFromFileName fileName)), st).

End HostRest.

Section ModeRest.
Context {E : Env} {L : LanguageService}.

(** [jsLanguageService.getFormattingEditsForRange]. *)
Variable getFormattingEditsForRange :
  State → Disk → string → Z → Z → gmap string JsValue →
  option (list TextChange).

(** [format].  It has no test of [languageServiceIncludesFile]; its one
    call on the service is [getFormattingEditsForRange], which comes
    after the first read of [currentTextDocument] on line 278. *)
Definition format (settings : ModeSettings) (st : State) (fs : Disk)
    (doc : TextDocument) (range : Range) (formatParams : FormattingOptions)
  : Outcome (list TextEdit) :=
  let st' := updateCurrentTextDocument st doc in
  mkOutcome st' (
    let fileFsPath := getFileFsPath (uri doc) in
    let initialIndentLevel := if scriptInitialIndent formatParams then 1 else 0 in
    let formatSettings :=
      convertOptions formatParams (settings_format settings)
        initialIndentLevel in
    document ←ˢ read_currentTextDocument;
    let start := offsetAt document (range_start range) in
    document ←ˢ read_currentTextDocument;
    let end_ := offsetAt document (range_end range) in
    match getFormattingEditsForRange st' fs fileFsPath start end_
            formatSettings with
    | Some edits =>
        svc_mapM
          (fun edit =>
             document ←ˢ read_currentTextDocument;
             svc_ret {| edit_range := convertRange document (change_span edit);
                        newText := change_newText edit |})
          (filter (fun edit => editInRange start end_ edit = true) edits)
    | None => svc_ret []
    end).

End ModeRest.

(** *** Further invariants of sessions *)

(** States in which a path has a counter exactly when it is tracked, and
    no counter is below 1. *)
Definition versionedIffTracked {E : Env} (st : State) : Prop :=
  ∀ p : string,
    (is_Some (docs st !! p) ↔ is_Some (versions st !! p))
    ∧ (∀ v, versions st !! p = Some v → (1 ≤ v)%Z).

(** *** Navigation trees *)

(** The items of a navigation tree in the order [collectSymbols] visits
    them. *)
Fixpoint nav_preorder (item : NavigationBarItem) : list NavigationBarItem :=
  match item with
  | mkNavigationBarItem _ _ _ childItems =>
      item :: flat_map nav_preorder childItems
  end.

Section NavigationLoops.
Context {E : Env} {L : LanguageService}.

(** The loop [for (let child of item.childItems) collectSymbols(child,
    containerLabel)], on its own. *)
Fixpoint collectList (docUri : string)
    (containerLabel : option string) (items : list NavigationBarItem)
    (acc : list SymbolInformation * gset string)
  : Completion (list SymbolInformation * gset string) :=
  match items with
  | [] => Returned acc
  | item :: rest =>
      match collectSymbols docUri item containerLabel acc with
      | Returned acc' => collectList docUri containerLabel rest acc'
      | Thrown => Thrown
      end
  end.

End NavigationLoops.

(** An item at which [collectSymbols] builds no symbol and reads no
    span it does not have: its kind is [script] and it has a span. *)
Definition scriptItem (item : NavigationBarItem) : bool :=
  bool_decide (nav_kind item = "script")
  && match nav_spans item with [] => false | _ :: _ => true end.

(** The script kind that goes with an extension of a resolved
    mixed-content import. *)
Definition scriptKindOfExtension (e : Extension) : ScriptKind :=
  match e with
  | Ts => ScriptKindTS
  | _ => ScriptKindJS
  end.

(** ** More of the sample environment *)
Module SampleMore.

Definition scriptKindFromFileName (fileName : string) : ScriptKind :=
  if endsWith fileName ".ts" then ScriptKindTS
  else if endsWith fileName ".js" then ScriptKindJS
  else ScriptKindUnknown.

Definition unreadable (cache : gmap string TextDocument) (uriString : string)
  : Completion TextDocument * gmap string TextDocument := (Thrown, cache).

(** A navigation tree: a script node over a class with a method. *)
Definition barItem : NavigationBarItem :=
  mkNavigationBarItem "bar" "method"
    [ {| span_start := 3; span_length := 2 |} ] [].

Definition tree : NavigationBarItem :=
  mkNavigationBarItem "<global>" "script"
    [ {| span_start := 0; span_length := 40 |} ]
    [ mkNavigationBarItem "Foo" "class"
        [ {| span_start := 0; span_length := 10 |} ] [ barItem ] ].

(** A tree with an item that has no span. *)
Definition brokenTree : NavigationBarItem :=
  mkNavigationBarItem "Foo" "class"
    [ {| span_start := 0; span_length := 10 |} ]
    [ barItem; mkNavigationBarItem "baz" "method" [] [] ].

(** A third mixed-content document, with a script that declares
    nothing. *)
Definition cPath : string := "/p/c.vue".

Definition docC : TextDocument :=
  {| uri := "file:///p/c.vue"; languageId := "vue"; version := 1;
     getText := "<script></script>" |}.

(** The tree of a script that declares nothing. *)
Definition emptyTree : NavigationBarItem :=
  mkNavigationBarItem "<global>" "script"
    [ {| span_start := 0; span_length := 40 |} ] [].

(** A service that has something to say about every position, and whose
    program has the host's file list as its roots. *)
Definition service : LanguageService (E:=Sample.env) :=
  {| getRootFileNames := fun st _ => files st;
     getSyntacticDiagnostics := fun _ _ _ => [];
     getSemanticDiagnostics :=
       fun _ _ _ =>
         [ {| tsdiag_span := {| span_start := 1; span_length := 2 |};
              messageText := "Cannot find name" |} ];
     getCompletionsAtPosition :=
       fun _ _ _ _ =>
         Some [ {| entry_name := "bar"; entry_sortText := "0";
                   entry_kind := "method" |} ];
     getCompletionEntryDetails := fun _ _ _ _ _ => None;
     getQuickInfoAtPosition := fun _ _ _ _ => None;
     getSignatureHelpItems := fun _ _ _ _ => None;
     getOccurrencesAtPosition := fun _ _ _ _ => None;
     getNavigationBarItems :=
       fun _ _ fileName =>
         if bool_decide (fileName = Sample.bPath) then Some [brokenTree]
         else if bool_decide (fileName = cPath) then Some [emptyTree]
         else Some [tree];
     getDefinitionAtPosition :=
       fun _ _ _ _ =>
         Some [ {| def_textSpan := {| span_start := 5; span_length := 3 |} |} ];
     getReferencesAtPosition :=
       fun _ _ _ _ =>
         Some [ {| ref_textSpan := {| span_start := 5; span_length := 3 |};
                   isWriteAccess := false |} ];
     positionAt := fun _ offset => {| line := 0; character := offset |};
     offsetAt := fun _ position => character position;
     displayPartsToString := fun parts => foldr append "" parts;
     flattenDiagnosticMessageText := fun message _ => message;
     getWordAtText :=
       fun _ offset => {| span_start := offset; span_length := 0 |};
     NULL_SIGNATURE :=
       {| activeSignature := 0; activeParameter := 0; signatures := [] |};
     NULL_COMPLETION :=
       {| item_uri := None; item_position := None; label := "";
          sortText := None; item_kind := None; textEdit := None;
          data := None; detail := None; documentation := None |} |}.

(** A formatter that proposes one edit inside the range and one that
    starts before it. *)
Definition formattingEdits (st : State (E:=Sample.env)) (fs : Disk) (fileName : string)
    (start end_ : Z) (options : gmap string JsValue)
  : option (list TextChange) :=
  Some [ {| change_span := {| span_start := start; span_length := 1 |};
            change_newText := " " |};
         {| change_span := {| span_start := start - 1; span_length := 1 |};
            change_newText := "x" |} ].

Definition formatParams : FormattingOptions :=
  {| tabSize := 2; insertSpaces := true; scriptInitialIndent := true |}.

Definition userFormat : gmap string JsValue :=
  {[ "InsertSpaceBeforeFunctionParenthesis" := VBool false ]}.

Definition userOptions : ModeOptions :=
  {| vetur := Some {| vetur_format := Some {| format_js := Some userFormat |} |} |}.

Definition wholeRange : Range :=
  {| range_start := {| line := 0; character := 2 |};
     range_end := {| line := 0; character := 9 |} |}.

Definition position : Position := {| line := 0; character := 3 |}.

End SampleMore.

(** * Properties of the host *)

(** ** The host at work on the sample project *)

Example endsWith_vue :
  endsWith "/p/a.vue" ".vue" = true ∧ endsWith "vue" ".vue" = false
  ∧ endsWith "/p/a.vue.ts" ".vue" = false.
Proof. by vm_compute. Qed.

Example number_add1_saturates :
  number_add1 41 = 42 ∧ number_add1 (MAX_SAFE - 1) = MAX_SAFE
  ∧ number_add1 MAX_SAFE = MAX_SAFE.
Proof. by vm_compute. Qed.

Example first_update_of_a :
  let st :=
    updateCurrentTextDocument (E:=Sample.env) Sample.emptyProject Sample.docA in
  files st = [Sample.aPath]
  ∧ versions st !! Sample.aPath = Some 1
  ∧ (languageId <$> docs st !! Sample.aPath) = Some "javascript"
  ∧ semanticCacheCleanups st = 0%nat.
Proof. by vm_compute. Qed.

Example versions_as_the_service_sees_them :
  let st :=
    session (E:=Sample.env) Sample.emptyProject
      [HostUpdate Sample.docA; HostUpdate Sample.docB; HostUpdate Sample.docA] in
  getScriptVersion (E:=Sample.env) st Sample.aPath = "2"
  ∧ getScriptVersion (E:=Sample.env) st Sample.bPath = "1"
  ∧ getScriptVersion (E:=Sample.env) st "/p/c.vue" = "0"
  ∧ getScriptVersion (E:=Sample.env) st "vue-temp/vue-editor-bridge.ts" = "0".
Proof. by vm_compute. Qed.

Example imports_of_a :
  fst (resolveModuleNames (E:=Sample.env) Sample.emptyProject Sample.disk
         ["./b.vue"; "vue-editor-bridge"; "./missing.vue"] Sample.aPath)
  = [Some {| resolvedFileName := Sample.bPath; extension := Ts |};
     Some {| resolvedFileName := "vue-temp/vue-editor-bridge.ts";
             extension := Ts |};
     None].
Proof. by vm_compute. Qed.

Example snapshot_of_b :
  let snapshot :=
    getScriptSnapshot (E:=Sample.env) Sample.emptyProject Sample.disk
      Sample.bPath in
  snapshot_getLength snapshot = 42
  ∧ snapshot_getText snapshot 16 30 = "export default"
  ∧ snapshot_getText snapshot 30 16 = "export default"
  ∧ snapshot_getChangeRange snapshot = None.
Proof. by vm_compute. Qed.

Section HostSteps.
Context {E : Env}.
Implicit Types (st : State) (doc : TextDocument) (fs : Disk).

(** ** One update step, field by field *)

(** Both branches of [updateCurrentTextDocument], with the answer of the
    document cache taken apart. *)
Ltac unfold_update st doc :=
  unfold updateCurrentTextDocument, cachedScript;
  destruct (documentChanged st doc);
  [destruct (jsDocuments_get (jsDocuments st) doc)|]; try done;
  by destruct (docs st !! _).

Lemma number_add1_exact (v : Z) : v < MAX_SAFE → number_add1 v = v + 1.
Proof. intros Hv. unfold number_add1. by rewrite bool_decide_eq_true_2. Qed.

Lemma update_files st doc :
  files (updateCurrentTextDocument st doc)
  = addToFiles st (getFileFsPath (uri doc)).
Proof. unfold_update st doc. Qed.

Lemma update_versions st doc :
  versions (updateCurrentTextDocument st doc)
  = if documentChanged st doc then
      <[getFileFsPath (uri doc) :=
          number_add1 (or_zero (versions st !! getFileFsPath (uri doc)))]>
        (versions st)
    else versions st.
Proof. unfold_update st doc. Qed.

Lemma update_docs st doc :
  docs (updateCurrentTextDocument st doc)
  = if documentChanged st doc then
      <[getFileFsPath (uri doc) := cachedScript st doc]> (docs st)
    else docs st.
Proof. unfold_update st doc. Qed.

Lemma update_current st doc :
  currentTextDocument (updateCurrentTextDocument st doc)
  = if documentChanged st doc then Some (cachedScript st doc)
    else currentTextDocument st.
Proof. unfold_update st doc. Qed.

(** An update asks the document cache once when it passes the guard, and
    not at all otherwise. *)
Lemma update_jsDocuments st doc :
  jsDocuments (updateCurrentTextDocument st doc)
  = if documentChanged st doc then snd (jsDocuments_get (jsDocuments st) doc)
    else jsDocuments st.
Proof. unfold_update st doc. Qed.

Lemma update_semanticCacheCleanups st doc :
  semanticCacheCleanups (updateCurrentTextDocument st doc)
  = if documentChanged st doc
       && languageIdChanged (docs st !! getFileFsPath (uri doc))
            (cachedScript st doc)
    then S (semanticCacheCleanups st)
    else semanticCacheCleanups st.
Proof. unfold_update st doc. Qed.

Lemma update_compilerOptions st doc :
  compilerOptions (updateCurrentTextDocument st doc)
  = if documentChanged st doc then
      match docs st !! getFileFsPath (uri doc) with
      | Some l =>
          if languageIdChanged (Some l) (cachedScript st doc) then
            {| allowNonTsExtensions :=
                 allowNonTsExtensions (compilerOptions st);
               allowJs := negb (bool_decide (languageId l = "typescript")) |}
          else compilerOptions st
      | None => compilerOptions st
      end
    else compilerOptions st.
Proof. unfold_update st doc. Qed.

(** *** Resolution leaves all but the document cache as it is *)

Lemma withJsDocuments_fields st (cache : DocumentCache) :
  compilerOptions (withJsDocuments st cache) = compilerOptions st
  ∧ currentTextDocument (withJsDocuments st cache) = currentTextDocument st
  ∧ versions (withJsDocuments st cache) = versions st
  ∧ docs (withJsDocuments st cache) = docs st
  ∧ files (withJsDocuments st cache) = files st
  ∧ semanticCacheCleanups (withJsDocuments st cache)
    = semanticCacheCleanups st.
Proof. done. Qed.

Lemma sameButCache_refl st : sameButCache st st.
Proof. by repeat split. Qed.

Lemma sameButCache_trans st1 st2 st3 :
  sameButCache st1 st2 → sameButCache st2 st3 → sameButCache st1 st3.
Proof.
  intros (?&?&?&?&?&?) (?&?&?&?&?&?). repeat split; congruence.
Qed.

Lemma resolveModuleName_sameButCache st fs (containingFile name : string) :
  sameButCache (snd (resolveModuleName st fs containingFile name)) st.
Proof.
  unfold resolveModuleName.
  case_bool_decide; [apply sameButCache_refl|].
  destruct (_ || _); [apply sameButCache_refl|].
  destruct (fileExists _ _); [|apply sameButCache_refl].
  destruct (docs st !! _); [apply sameButCache_refl|].
  destruct (jsDocuments_get _ _). by repeat split.
Qed.

Lemma resolveModuleNames_sameButCache st fs (moduleNames : list string)
    (containingFile : string) :
  sameButCache (snd (resolveModuleNames st fs moduleNames containingFile)) st.
Proof.
  revert st. induction moduleNames as [|name rest IH]; intros st; simpl.
  - apply sameButCache_refl.
  - pose proof (resolveModuleName_sameButCache st fs containingFile name) as H1.
    destruct (resolveModuleName st fs containingFile name) as [r st1].
    pose proof (IH st1) as H2.
    destruct (resolveModuleNames st1 fs rest containingFile) as [rs st2].
    simpl in *. by eapply sameButCache_trans.
Qed.

(** What a host call other than an update leaves as it is. *)
Lemma hostStep_sameButCache st (c : HostCall) :
  (∀ doc, c ≠ HostUpdate doc) → sameButCache (hostStep st c) st.
Proof.
  intros Hc. destruct c; simpl; try apply sameButCache_refl.
  - by destruct (Hc doc).
  - apply resolveModuleNames_sameButCache.
  - by repeat split.
Qed.

(** The guard of line 55 never reads the text of the document. *)
Lemma documentChanged_ignores_text st doc (text : string) :
  documentChanged st
    {| uri := uri doc; languageId := languageId doc;
       version := version doc; getText := text |}
  = documentChanged st doc.
Proof. reflexivity. Qed.

End HostSteps.

(** For a goal about [hostStep st c], [c] not an update: what the step
    leaves as it is. *)
Ltac other_call H :=
  match goal with
  | |- context [hostStep ?st ?c] =>
      assert (sameButCache (hostStep st c) st) as H
        by (by apply hostStep_sameButCache)
  end.

Section HostProperties.
Context {E : Env}.
Implicit Types (st : State) (doc : TextDocument) (fs : Disk).

(** After an update there is a current document. *)
Lemma update_current_is_Some st doc :
  is_Some (currentTextDocument (updateCurrentTextDocument st doc)).
Proof.
  rewrite update_current. unfold documentChanged.
  destruct (currentTextDocument st) as [cur|]; [|by eexists].
  destruct (_ || _); by eexists.
Qed.

(** ** The root file list only grows at its end *)

Lemma addToFiles_cases st (p : string) :
  addToFiles st p = files st ∨
  (addToFiles st p = files st ++ [p]
   ∧ docs st !! p = None ∧ endsWith p ".vue" = true).
Proof.
  unfold addToFiles. case_bool_decide as Htracked; simpl; [by left|].
  destruct (endsWith p ".vue") eqn:Hvue; [right|by left].
  split_and!; [done| |done].
  destruct (docs st !! p) eqn:Hp; [|done].
  exfalso. apply Htracked. by eexists.
Qed.

Lemma update_files_prefix st doc :
  files st `prefix_of` files (updateCurrentTextDocument st doc).
Proof.
  rewrite update_files.
  destruct (addToFiles_cases st (getFileFsPath (uri doc))) as [->|[-> _]].
  - done.
  - by apply prefix_app_r.
Qed.

Lemma hostStep_files_prefix st (c : HostCall) :
  files st `prefix_of` files (hostStep st c).
Proof.
  destruct c as [doc| | | | | |]; [apply update_files_prefix|..];
    other_call H; by destruct H as (_&_&_&_&->&_).
Qed.

Lemma session_snoc st (calls : list HostCall) (c : HostCall) :
  session st (calls ++ [c]) = hostStep (session st calls) c.
Proof. unfold session. by rewrite fold_left_app. Qed.

(** A property of the initial state that every host call preserves holds
    throughout the session. *)
Lemma session_invariant (P : State → Prop) st (calls : list HostCall) :
  P st → (∀ s c, P s → P (hostStep s c)) → P (session st calls).
Proof.
  intros Hinit Hstep. induction calls as [|c calls IH] using rev_ind.
  - done.
  - rewrite session_snoc. by apply Hstep.
Qed.

Lemma session_files_prefix st (calls : list HostCall) :
  files st `prefix_of` files (session st calls).
Proof.
  induction calls as [|c calls IH] using rev_ind; [done|].
  rewrite session_snoc. etrans; [exact IH|]. apply hostStep_files_prefix.
Qed.

(** ** Tracked mixed-content documents are root files *)

Lemma update_trackedVueInRoot st doc :
  trackedVueInRoot st → trackedVueInRoot (updateCurrentTextDocument st doc).
Proof.
  intros Hinv p d. rewrite update_docs, update_files.
  set (q := getFileFsPath (uri doc)).
  intros Hp Hvue.
  assert (p ∈ files st ∨ (p = q ∧ docs st !! q = None)) as [Hin|[-> Hq]].
  { destruct (documentChanged st doc).
    - destruct (decide (q = p)) as [<-|Hne].
      + destruct (docs st !! q) as [d'|] eqn:Hq; [left|by right].
        by eapply Hinv.
      + rewrite lookup_insert_ne in Hp by done. left. by eapply Hinv.
    - left. by eapply Hinv. }
  - destruct (addToFiles_cases st q) as [->|[-> _]]; [done|].
    apply elem_of_app. by left.
  - unfold addToFiles. rewrite Hq, Hvue. simpl.
    apply elem_of_app. right. by apply list_elem_of_singleton.
Qed.

Lemma sameButCache_trackedVueInRoot st st' :
  sameButCache st' st → trackedVueInRoot st → trackedVueInRoot st'.
Proof. intros (_&_&_&Hd&Hf&_) Hinv p d. rewrite Hd, Hf. apply Hinv. Qed.

Lemma hostStep_trackedVueInRoot st (c : HostCall) :
  trackedVueInRoot st → trackedVueInRoot (hostStep st c).
Proof.
  destruct c as [doc| | | | | |]; [apply update_trackedVueInRoot|..];
    by apply sameButCache_trackedVueInRoot, hostStep_sameButCache.
Qed.

Lemma session_trackedVueInRoot (cache : DocumentCache)
    (fileNames : list string) (options : CompilerOptions)
    (calls : list HostCall) :
  trackedVueInRoot
    (session (createLanguageService cache fileNames options) calls).
Proof.
  apply session_invariant.
  - intros p d Hp. simpl in Hp. by rewrite lookup_empty in Hp.
  - intros s c. apply hostStep_trackedVueInRoot.
Qed.

End HostProperties.

(** ** The version store *)

Section VersionStore.
Context {E : Env}.
Implicit Types (st : State) (doc : TextDocument).

Lemma update_currentIsTracked st doc :
  cacheKeepsIdentity →
  currentIsTracked st → currentIsTracked (updateCurrentTextDocument st doc).
Proof.
  intros Hkeep Hinv cur. rewrite update_current, update_docs.
  destruct (documentChanged st doc); [|by apply Hinv].
  intros [= <-]. unfold cachedScript.
  destruct (Hkeep (jsDocuments st) doc) as [-> _]. by rewrite lookup_insert_eq.
Qed.

Lemma hostStep_currentIsTracked st (c : HostCall) :
  cacheKeepsIdentity → currentIsTracked st → currentIsTracked (hostStep st c).
Proof.
  intros Hkeep Hinv.
  destruct c as [doc| | | | | |]; [by apply update_currentIsTracked|..];
    other_call H; destruct H as (_&Hc&_&Hd&_&_);
    intros cur; rewrite Hc, Hd; apply Hinv.
Qed.

Lemma session_currentIsTracked (cache : DocumentCache)
    (fileNames : list string) (options : CompilerOptions)
    (calls : list HostCall) :
  cacheKeepsIdentity →
  currentIsTracked
    (session (createLanguageService cache fileNames options) calls).
Proof.
  intros Hkeep. apply session_invariant.
  - by intros cur.
  - intros s c. by apply hostStep_currentIsTracked.
Qed.

Lemma number_add1_bounds (v : Z) : (v ≤ number_add1 v ≤ v + 1)%Z.
Proof. unfold number_add1. case_bool_decide; lia. Qed.

Lemma update_versionOf_bounds st doc (p : string) :
  (versionOf st p ≤ versionOf (updateCurrentTextDocument st doc) p
   ≤ versionOf st p + 1)%Z.
Proof.
  unfold versionOf. rewrite update_versions.
  destruct (documentChanged st doc); [|lia].
  destruct (decide (getFileFsPath (uri doc) = p)) as [->|Hne].
  - rewrite lookup_insert_eq. simpl. apply number_add1_bounds.
  - rewrite lookup_insert_ne by done. lia.
Qed.

Lemma hostStep_versionOf_bounds st (c : HostCall) (p : string) :
  (versionOf st p ≤ versionOf (hostStep st c) p ≤ versionOf st p + 1)%Z.
Proof.
  destruct c as [doc| | | | | |]; [apply update_versionOf_bounds|..];
    other_call H; destruct H as (_&_&Hv&_&_&_);
    unfold versionOf; rewrite Hv; lia.
Qed.

(** A counter never exceeds the number of calls made so far, so it stays
    below [2^53] in any session that a host will ever see. *)
Lemma session_versionOf_bounds (cache : DocumentCache)
    (fileNames : list string) (options : CompilerOptions)
    (calls : list HostCall) (p : string) :
  (0 ≤ versionOf
         (session (createLanguageService cache fileNames options) calls) p
   ≤ Z.of_nat (length calls))%Z.
Proof.
  induction calls as [|c calls IH] using rev_ind.
  - unfold versionOf. simpl. by rewrite lookup_empty.
  - rewrite session_snoc, length_app. simpl.
    pose proof (hostStep_versionOf_bounds
                  (session (createLanguageService cache fileNames options)
                     calls) c p).
    lia.
Qed.

(** C1 (as amended).  The counter stored for the path of the submitted
    document goes up by exactly one when the call passes the guard of
    line 55, that is when there is no current document yet or the
    submitted document differs from it in URI or in version number; a call
    that submits the current URI and version again leaves the counter as
    it is.  The text plays no part.  A path without a counter counts as 0,
    and the counter is below [2^53], where [+ 1] on a JavaScript number is
    exact. *)
Theorem C1_version_bump st doc :
  versionOf st (getFileFsPath (uri doc)) < MAX_SAFE →
  versionOf (updateCurrentTextDocument st doc) (getFileFsPath (uri doc))
  = if documentChanged st doc
    then versionOf st (getFileFsPath (uri doc)) + 1
    else versionOf st (getFileFsPath (uri doc)).
Proof.
  intros Hsafe. unfold versionOf in *. rewrite update_versions.
  destruct (documentChanged st doc); [|done].
  rewrite lookup_insert_eq. simpl. by apply number_add1_exact.
Qed.


End VersionStore.

(** C1 as stated fails: the second of two calls with one and the same
    document (same URI, same version, same text) leaves the counter of its
    path at 1. *)
Lemma C1_counterexample :
  let st1 :=
    updateCurrentTextDocument (E:=Sample.env) Sample.emptyProject Sample.docA in
  let st2 := updateCurrentTextDocument (E:=Sample.env) st1 Sample.docA in
  (getText <$> docs st1 !! Sample.aPath) = Some (getText Sample.docA)
  ∧ versionOf st1 Sample.aPath = 1
  ∧ ¬ (versionOf st1 Sample.aPath < versionOf st2 Sample.aPath).
Proof. vm_compute. split_and!; [done|done|]. by intros [=]. Qed.

(** C1 (as amended) at work: after a first update of [a.vue], a new
    version of it takes the counter to 2, the same version again leaves it
    at 1. *)
Lemma C1_witness :
  let st1 :=
    updateCurrentTextDocument (E:=Sample.env) Sample.emptyProject Sample.docA in
  versionOf st1 (getFileFsPath (E:=Sample.env) (uri Sample.docA_ts)) < MAX_SAFE
  ∧ versionOf (updateCurrentTextDocument (E:=Sample.env) st1 Sample.docA_ts)
      (getFileFsPath (E:=Sample.env) (uri Sample.docA_ts)) = 2
  ∧ versionOf (updateCurrentTextDocument (E:=Sample.env) st1 Sample.docA)
      (getFileFsPath (E:=Sample.env) (uri Sample.docA)) = 1.
Proof.
  intros st1.
  assert (Hsafe : versionOf st1 Sample.aPath < MAX_SAFE) by (by vm_compute).
  split_and!.
  - exact Hsafe.
  - rewrite (C1_version_bump (E:=Sample.env) st1 Sample.docA_ts Hsafe).
    by vm_compute.
  - rewrite (C1_version_bump (E:=Sample.env) st1 Sample.docA Hsafe).
    by vm_compute.
Defined.



(** ** The virtual module resolver *)

Section Resolver.
Context {E : Env}.
Implicit Types (st : State) (fs : Disk).

Lemma fileExists_readFile fs (p : string) :
  fileExists fs p = true ↔ is_Some (readFile fs p).
Proof. unfold fileExists, readFile. apply bool_decide_eq_true. Qed.

(** What the resolver does with a relative import of a mixed-content
    document: the third branch of the arrow function. *)
Lemma resolveModuleName_relative_vue st fs (containingFile name : string) :
  name ≠ bridge_moduleName →
  path_isAbsolute name = false →
  isVue name = true →
  resolveModuleName st fs containingFile name
  = match readFile fs (candidatePath containingFile name) with
    | Some text =>
        match docs st !! candidatePath containingFile name with
        | Some d =>
            (Some {| resolvedFileName := candidatePath containingFile name;
                     extension := extensionOf d |},
             st)
        | None =>
            (Some {| resolvedFileName := candidatePath containingFile name;
                     extension :=
                       extensionOf
                         (cachedScript st
                            (diskDocument containingFile name text)) |},
             withJsDocuments st
               (snd (jsDocuments_get (jsDocuments st)
                       (diskDocument containingFile name text))))
        end
    | None => (None, st)
    end.
Proof.
  intros Hbridge Habs Hvue. unfold resolveModuleName.
  rewrite (bool_decide_eq_false_2 _ Hbridge), Habs, Hvue. simpl.
  fold (candidatePath containingFile name).
  unfold fileExists, readFile.
  destruct (fs !! candidatePath containingFile name) as [text|] eqn:Hdisk.
  - rewrite bool_decide_eq_true_2 by (by eexists). simpl.
    unfold extensionOf, cachedScript, diskDocument.
    destruct (docs st !! candidatePath containingFile name); [done|].
    by destruct (jsDocuments_get _ _).
  - rewrite bool_decide_eq_false_2; [done|]. by intros [? ?].
Qed.

(** C4 (as amended).  A relative import of a mixed-content document
    resolves to the candidate path, the specifier joined to the directory
    of the containing file, and it is unresolved exactly when the disk has
    no file at that path.  The tracked documents are not asked whether the
    file exists. *)
Theorem C4_unresolved_iff_absent_from_disk st fs
    (containingFile name : string) :
  name ≠ bridge_moduleName →
  path_isAbsolute name = false →
  isVue name = true →
  (fst (resolveModuleName st fs containingFile name) = None
   ↔ readFile fs (candidatePath containingFile name) = None)
  ∧ (∀ r, fst (resolveModuleName st fs containingFile name) = Some r →
          resolvedFileName r = candidatePath containingFile name).
Proof.
  intros Hbridge Habs Hvue.
  rewrite (resolveModuleName_relative_vue st fs _ _ Hbridge Habs Hvue).
  destruct (readFile fs (candidatePath containingFile name)) as [text|].
  - destruct (docs st !! _); (split; [by split|]); by intros r [= <-].
  - split; [by split|]. by intros r.
Qed.

(** The editor's view wins: a relative import of a mixed-content document
    that is on disk and tracked resolves, with the dialect of the tracked
    entry, and the document cache is not asked. *)
Lemma resolve_tracked_on_disk st fs (containingFile name : string)
    (d : TextDocument) :
  name ≠ bridge_moduleName →
  path_isAbsolute name = false →
  isVue name = true →
  fileExists fs (candidatePath containingFile name) = true →
  docs st !! candidatePath containingFile name = Some d →
  resolveModuleName st fs containingFile name
  = (Some {| resolvedFileName := candidatePath containingFile name;
             extension := extensionOf d |},
     st).
Proof.
  intros Hbridge Habs Hvue [text Hdisk]%fileExists_readFile Htracked.
  rewrite (resolveModuleName_relative_vue st fs _ _ Hbridge Habs Hvue).
  by rewrite Hdisk, Htracked.
Qed.

(** A relative import of a mixed-content document that is on disk and not
    tracked resolves, with the dialect of the script document that the
    document cache, in the state it is in, answers with for the document
    built from the text on disk. *)
Lemma resolve_untracked_on_disk st fs (containingFile name text : string) :
  name ≠ bridge_moduleName →
  path_isAbsolute name = false →
  isVue name = true →
  readFile fs (candidatePath containingFile name) = Some text →
  docs st !! candidatePath containingFile name = None →
  fst (resolveModuleName st fs containingFile name)
  = Some {| resolvedFileName := candidatePath containingFile name;
            extension :=
              extensionOf
                (cachedScript st (diskDocument containingFile name text)) |}.
Proof.
  intros Hbridge Habs Hvue Hdisk Htracked.
  rewrite (resolveModuleName_relative_vue st fs _ _ Hbridge Habs Hvue).
  by rewrite Hdisk, Htracked.
Qed.

(** The document of line 114 always has the version 0 and the languageId
    [vue], so that a cache that answers from its entry gives, for a file
    that is not tracked, the dialect of the first resolution again,
    whatever the disk holds by then. *)
Lemma resolution_keeps_first_dialect st fs1 fs2
    (containingFile name text1 text2 : string) :
  cacheReusesEntry →
  name ≠ bridge_moduleName →
  path_isAbsolute name = false →
  isVue name = true →
  docs st !! candidatePath containingFile name = None →
  readFile fs1 (candidatePath containingFile name) = Some text1 →
  readFile fs2 (candidatePath containingFile name) = Some text2 →
  fst (resolveModuleName
         (snd (resolveModuleName st fs1 containingFile name)) fs2
         containingFile name)
  = fst (resolveModuleName st fs1 containingFile name).
Proof.
  intros Hreuse Hbridge Habs Hvue Htracked Hdisk1 Hdisk2.
  rewrite !(λ st fs, resolveModuleName_relative_vue st fs _ _
                       Hbridge Habs Hvue).
  rewrite Hdisk1, Htracked. simpl. rewrite Hdisk2, Htracked. simpl.
  unfold cachedScript. simpl. by rewrite Hreuse.
Qed.

(** For a tracked file the answer does not depend on the document cache:
    hosts that track the same documents agree on it. *)
Lemma resolution_of_tracked_reads_docs_only (st1 st2 : State) fs
    (containingFile name : string) :
  docs st1 = docs st2 →
  name ≠ bridge_moduleName →
  path_isAbsolute name = false →
  isVue name = true →
  is_Some (docs st1 !! candidatePath containingFile name) →
  fst (resolveModuleName st1 fs containingFile name)
  = fst (resolveModuleName st2 fs containingFile name).
Proof.
  intros Hdocs Hbridge Habs Hvue [d Htracked].
  rewrite !(λ st, resolveModuleName_relative_vue st fs _ _
                    Hbridge Habs Hvue).
  rewrite <- Hdocs, Htracked. by destruct (readFile fs _).
Qed.

(** C6.  The bridge module name resolves, for every host state, disk and
    containing file, to the bridge file name with the extension [Ts], and
    the host is left as it was. *)
Theorem C6_bridge_always_resolves st fs (containingFile : string) :
  resolveModuleName st fs containingFile bridge_moduleName
  = (Some {| resolvedFileName := bridge_fileName; extension := Ts |}, st)
  ∧ resolveModuleNames st fs [bridge_moduleName] containingFile
    = ([Some {| resolvedFileName := bridge_fileName; extension := Ts |}], st).
Proof.
  unfold resolveModuleNames, resolveModuleName. simpl.
  by rewrite bool_decide_eq_true_2.
Qed.

(** The root files of a session are those of the configuration and the
    paths of its updates. *)
Lemma session_files_origin (cache : DocumentCache) (fileNames : list string)
    (options : CompilerOptions) (calls : list HostCall) (p : string) :
  p ∈ files (session (createLanguageService cache fileNames options) calls) →
  p ∈ fileNames ∨ p ∈ updatedPaths calls.
Proof.
  induction calls as [|c calls IH] using rev_ind; [by left|].
  rewrite session_snoc. unfold updatedPaths. rewrite omap_app.
  fold (updatedPaths calls). setoid_rewrite elem_of_app.
  destruct c as [doc| | | | | |];
    [|other_call H; destruct H as (_&_&_&_&->&_); intros Hp;
      destruct (IH Hp); auto..].
  simpl. rewrite update_files.
  destruct (addToFiles_cases
              (session (createLanguageService cache fileNames options) calls)
              (getFileFsPath (uri doc))) as [->|[-> _]].
  - intros Hp. destruct (IH Hp); auto.
  - intros [Hp| ->%list_elem_of_singleton]%elem_of_app.
    + destruct (IH Hp); auto.
    + right. right. by apply list_elem_of_singleton.
Qed.

(** C3 (as amended).  In every state a session reaches, each tracked
    document whose path ends in [.vue] is in the root file list; a call
    of [resolveModuleNames] changes neither the tracked documents nor the
    root file list; and a path is a root file only if the configuration
    listed it or an update was made for it. *)
Theorem C3_tracked_vue_in_root (cache : DocumentCache)
    (fileNames : list string) (options : CompilerOptions)
    (calls : list HostCall) :
  let st := session (createLanguageService cache fileNames options) calls in
  (∀ (p : string) (d : TextDocument),
     docs st !! p = Some d → endsWith p ".vue" = true → p ∈ files st)
  ∧ (∀ fs (moduleNames : list string) (containingFile : string),
       let st' :=
         session st [HostResolveModuleNames fs moduleNames containingFile] in
       docs st' = docs st ∧ files st' = files st)
  ∧ (∀ p : string, p ∈ files st → p ∈ fileNames ∨ p ∈ updatedPaths calls).
Proof.
  split_and!.
  - apply session_trackedVueInRoot.
  - intros fs moduleNames containingFile. simpl.
    by destruct (resolveModuleNames_sameButCache
                   (session (createLanguageService cache fileNames options)
                      calls) fs moduleNames containingFile)
      as (_&_&_&?&?&_).
  - apply session_files_origin.
Qed.

(** C8.  The snapshot of the bridge file name is the bridge text.  For
    any other file name the served text is the text of the document
    tracked under the normalised path, else the text read from disk, else,
    when the read fails, the empty string; and when the file name is a
    mixed-content one the snapshot holds the script extracted from the
    served text.  [getScriptSnapshot] always returns a snapshot. *)
Theorem C8_snapshot_text st fs (fileName : string) :
  let extract (served : string) :=
    if isVue fileName then parseVue served else served in
  snapshot_text (getScriptSnapshot st fs bridge_fileName) = bridge_content
  ∧ (fileName ≠ bridge_fileName →
     (∀ d, docs st !! getNormalizedFileFsPath fileName = Some d →
           snapshot_text (getScriptSnapshot st fs fileName)
           = extract (getText d))
     ∧ (docs st !! getNormalizedFileFsPath fileName = None →
        (∀ text, readFile fs (getNormalizedFileFsPath fileName) = Some text →
                 snapshot_text (getScriptSnapshot st fs fileName)
                 = extract text)
        ∧ (readFile fs (getNormalizedFileFsPath fileName) = None →
           snapshot_text (getScriptSnapshot st fs fileName) = extract ""))).
Proof.
  simpl. split.
  - unfold getScriptSnapshot. by rewrite bool_decide_eq_true_2.
  - intros Hbridge. unfold getScriptSnapshot.
    rewrite (bool_decide_eq_false_2 _ Hbridge). simpl.
    split.
    + by intros d ->.
    + intros ->. split.
      * intros text ->. by case_bool_decide; subst.
      * by intros ->.
Qed.

End Resolver.

(** ** The root file list *)

Section FileRegistry.
Context {E : Env}.
Implicit Types (st : State) (doc : TextDocument).

(** An update that leaves the submitted path untracked cannot happen once
    the current document is tracked: the guard of line 55 lets through
    every document but the current one. *)
Lemma update_tracks_path st doc :
  currentIsTracked st →
  is_Some (docs (updateCurrentTextDocument st doc) !! getFileFsPath (uri doc)).
Proof.
  intros Hinv. rewrite update_docs.
  destruct (documentChanged st doc) eqn:Hguard.
  - rewrite lookup_insert_eq. by eexists.
  - unfold documentChanged in Hguard.
    destruct (currentTextDocument st) as [cur|] eqn:Hcur; [|done].
    apply orb_false_elim in Hguard as [Huri _].
    apply negb_false_iff, bool_decide_eq_true in Huri.
    rewrite Huri, (Hinv cur Hcur). by eexists.
Qed.

Lemma update_keeps_tracked st doc (p : string) :
  is_Some (docs st !! p) →
  is_Some (docs (updateCurrentTextDocument st doc) !! p).
Proof.
  intros Hp. rewrite update_docs. destruct (documentChanged st doc); [|done].
  destruct (decide (getFileFsPath (uri doc) = p)) as [->|Hne].
  - rewrite lookup_insert_eq. by eexists.
  - by rewrite lookup_insert_ne.
Qed.

Lemma update_appendedOnce (fileNames : list string) st doc :
  currentIsTracked st →
  appendedOnce fileNames st →
  appendedOnce fileNames (updateCurrentTextDocument st doc).
Proof.
  intros Hcur (added & Hfiles & Hnodup & Htracked).
  destruct (addToFiles_cases st (getFileFsPath (uri doc)))
    as [Hsame|(Happ & Hnew & _)].
  - exists added. rewrite update_files, Hsame. split_and!; [done|done|].
    intros p Hp. by apply update_keeps_tracked, Htracked.
  - exists (added ++ [getFileFsPath (uri doc)]).
    rewrite update_files, Happ, Hfiles, <- app_assoc. split_and!; [done| |].
    + apply NoDup_app. split_and!; [done| |apply NoDup_singleton].
      intros p Hp ->%list_elem_of_singleton.
      destruct (Htracked _ Hp) as [d Hd]. by rewrite Hnew in Hd.
    + intros p [Hp| ->%list_elem_of_singleton]%elem_of_app.
      * by apply update_keeps_tracked, Htracked.
      * by apply update_tracks_path.
Qed.

(** With a cache that keeps the URI, the paths that a session appends to
    the configured root files are pairwise distinct: a path comes twice
    only when the configuration had listed it already. *)
Lemma session_appendedOnce (cache : DocumentCache) (fileNames : list string)
    (options : CompilerOptions) (calls : list HostCall) :
  cacheKeepsIdentity →
  appendedOnce fileNames
    (session (createLanguageService cache fileNames options) calls).
Proof.
  intros Hkeep.
  cut (currentIsTracked
         (session (createLanguageService cache fileNames options) calls)
       ∧ appendedOnce fileNames
           (session (createLanguageService cache fileNames options) calls));
    [by intros [_ ?]|].
  apply (session_invariant (λ s, currentIsTracked s ∧ appendedOnce fileNames s)).
  - split; [by intros cur|].
    exists []. simpl. rewrite app_nil_r. split_and!; [done|constructor|].
    by intros p ?%elem_of_nil.
  - intros s c [Hcur Happ]. split; [by apply hostStep_currentIsTracked|].
    destruct c as [doc| | | | | |]; [by apply update_appendedOnce|..];
      other_call H; destruct H as (_&_&_&Hd&Hf&_);
      unfold appendedOnce; by rewrite Hd, Hf.
Qed.

End FileRegistry.

(** C7, the failing input.  [a.vue] is a root file from the project
    configuration; the first update of [a.vue] appends its path again,
    because line 50 asks whether the path is tracked and not whether the
    root file list has it. *)
Theorem C7_root_file_listed_twice :
  Sample.aPath ∈ files Sample.configuredProject
  ∧ files (updateCurrentTextDocument (E:=Sample.env) Sample.configuredProject
             Sample.docA)
    = [Sample.aPath; Sample.aPath].
Proof. split; [|by vm_compute]. by apply list_elem_of_singleton. Qed.

(** C3 as stated fails: [a.vue] imports [./b.vue], which is on disk;
    after the update of [a] and the resolution of its import, which
    succeeds, [b] is neither tracked nor among the root files. *)
Lemma C3_counterexample :
  let st :=
    session (E:=Sample.env) Sample.emptyProject
      [HostUpdate Sample.docA;
       HostResolveModuleNames Sample.disk ["./b.vue"] Sample.aPath] in
  fst (resolveModuleNames (E:=Sample.env) st Sample.disk ["./b.vue"]
         Sample.aPath)
  = [Some {| resolvedFileName := Sample.bPath; extension := Ts |}]
  ∧ docs st !! Sample.bPath = None
  ∧ files st = [Sample.aPath]
  ∧ Sample.bPath ∉ files st.
Proof.
  vm_compute. split_and!; [done|done|done|].
  intros Hin%list_elem_of_singleton. discriminate Hin.
Qed.

(** C3 (as amended) at work: once [b.vue] has had its own update it is
    tracked and a root file. *)
Lemma C3_witness :
  let st :=
    session (E:=Sample.env) Sample.emptyProject
      [HostUpdate Sample.docA;
       HostResolveModuleNames Sample.disk ["./b.vue"] Sample.aPath;
       HostUpdate Sample.docB] in
  docs st !! Sample.bPath = Some (Sample.embeddedScript Sample.docB)
  ∧ endsWith Sample.bPath ".vue" = true
  ∧ Sample.bPath ∈ files st.
Proof.
  intros st.
  assert (Htracked : docs st !! Sample.bPath
                     = Some (Sample.embeddedScript Sample.docB))
    by (by vm_compute).
  assert (Hvue : endsWith Sample.bPath ".vue" = true) by (by vm_compute).
  split_and!; [exact Htracked|exact Hvue|].
  exact (proj1 (C3_tracked_vue_in_root (E:=Sample.env) ∅ [] Sample.options _)
           Sample.bPath _ Htracked Hvue).
Defined.

(** C4 as stated fails: [b.vue] is open in the editor and tracked, the
    disk has no such file, and the import of [./b.vue] from [a.vue] is
    unresolved. *)
Lemma C4_counterexample :
  let st :=
    updateCurrentTextDocument (E:=Sample.env) Sample.emptyProject Sample.docB in
  candidatePath (E:=Sample.env) Sample.aPath "./b.vue" = Sample.bPath
  ∧ docs st !! Sample.bPath = Some (Sample.embeddedScript Sample.docB)
  ∧ readFile (∅ : Disk) Sample.bPath = None
  ∧ fst (resolveModuleName (E:=Sample.env) st ∅ Sample.aPath "./b.vue")
    = None.
Proof. by vm_compute. Qed.

(** C4 (as amended) at work: [./b.vue] imported from [/p/a.vue], with an
    empty disk and with a disk that has the file. *)
Lemma C4_witness :
  "./b.vue" ≠ bridge_moduleName (Env:=Sample.env)
  ∧ path_isAbsolute (Env:=Sample.env) "./b.vue" = false
  ∧ isVue (Env:=Sample.env) "./b.vue" = true
  ∧ (fst (resolveModuleName (E:=Sample.env) Sample.emptyProject ∅
            Sample.aPath "./b.vue") = None
     ↔ readFile (∅ : Disk)
         (candidatePath (E:=Sample.env) Sample.aPath "./b.vue") = None)
  ∧ (∀ r, fst (resolveModuleName (E:=Sample.env) Sample.emptyProject
                 Sample.disk Sample.aPath "./b.vue") = Some r →
          resolvedFileName r = Sample.bPath).
Proof.
  assert (Hbridge : "./b.vue" ≠ bridge_moduleName (Env:=Sample.env))
    by (by vm_compute).
  assert (Habs : path_isAbsolute (Env:=Sample.env) "./b.vue" = false)
    by (by vm_compute).
  assert (Hvue : isVue (Env:=Sample.env) "./b.vue" = true) by (by vm_compute).
  split_and!; [exact Hbridge|exact Habs|exact Hvue| |].
  - exact (proj1 (C4_unresolved_iff_absent_from_disk (E:=Sample.env)
                    Sample.emptyProject ∅ Sample.aPath "./b.vue"
                    Hbridge Habs Hvue)).
  - exact (proj2 (C4_unresolved_iff_absent_from_disk (E:=Sample.env)
                    Sample.emptyProject Sample.disk Sample.aPath "./b.vue"
                    Hbridge Habs Hvue)).
Defined.

(** The sample cache answers from the entry it has. *)
Lemma sample_cacheGet_twice (cache : gmap string TextDocument)
    (d1 d2 : TextDocument) :
  uri d1 = uri d2 → version d1 = version d2 →
  languageId d1 = languageId d2 →
  fst (Sample.cacheGet (snd (Sample.cacheGet cache d1)) d2)
  = fst (Sample.cacheGet cache d1).
Proof.
  intros Huri Hversion Hlang.
  destruct (Sample.cacheGet cache d1) as [r1 c1] eqn:Hfirst. simpl.
  unfold Sample.cacheGet in *. rewrite <- Huri, <- Hversion, <- Hlang.
  destruct (cache !! uri d1) as [entry|] eqn:Hentry.
  - destruct (bool_decide (uri entry = uri d1)
              && bool_decide (version entry = version d1)
              && bool_decide (languageId entry = languageId d1)) eqn:Hhit;
      injection Hfirst as <- <-.
    + by rewrite Hentry, Hhit.
    + rewrite lookup_insert_eq. by rewrite !bool_decide_eq_true_2.
  - injection Hfirst as <- <-.
    rewrite lookup_insert_eq. by rewrite !bool_decide_eq_true_2.
Qed.

Lemma sample_cacheReusesEntry : cacheReusesEntry (E:=Sample.env).
Proof. exact sample_cacheGet_twice. Qed.

(** C5, the failing input.  [b.vue] is never opened.  Its import from
    [a.vue] is resolved while the file has a typed script, then the file
    is rewritten with an untyped one and the import is resolved again.
    The second resolution reads the new text from the disk, as the
    snapshot of the file does, and still answers with the dialect of the
    first: the document of line 114 has the version 0 whatever its text,
    and the document cache answers from the entry of that version. *)
Theorem C5_dialect_of_disk_is_stale :
  let st1 :=
    snd (resolveModuleName (E:=Sample.env) Sample.emptyProject Sample.disk
           Sample.aPath "./b.vue") in
  docs st1 !! Sample.bPath = None
  ∧ readFile Sample.diskLater Sample.bPath = Some Sample.bTextUntyped
  ∧ languageId
      (Sample.embeddedScript
         (diskDocument (E:=Sample.env) Sample.aPath "./b.vue"
            Sample.bTextUntyped))
    = "javascript"
  ∧ snapshot_text
      (getScriptSnapshot (E:=Sample.env) st1 Sample.diskLater Sample.bPath)
    = Sample.bTextUntyped
  ∧ fst (resolveModuleName (E:=Sample.env) st1 Sample.diskLater
           Sample.aPath "./b.vue")
    = Some {| resolvedFileName := Sample.bPath; extension := Ts |}.
Proof. by vm_compute. Qed.

(** C9, the failing input.  One host, nothing tracked.  The import of
    [./b.vue] from [a.vue] is resolved while [b.vue] has a typed script;
    then [b.vue] is rewritten with an untyped one.  The import is
    resolved again before and after the document cache drops its entry:
    the two calls have the same specifier and containing file, meet the
    same tracked documents, settings and disk, and disagree on the
    dialect. *)
Theorem C9_answer_depends_on_history :
  let st1 :=
    session (E:=Sample.env) Sample.emptyProject
      [HostResolveModuleNames Sample.disk ["./b.vue"] Sample.aPath] in
  let st2 :=
    session (E:=Sample.env) st1
      [HostCacheChanged (E:=Sample.env) (∅ : gmap string TextDocument)] in
  docs st1 = docs st2
  ∧ compilerOptions st1 = compilerOptions st2
  ∧ fst (resolveModuleNames (E:=Sample.env) st1 Sample.diskLater ["./b.vue"]
           Sample.aPath)
    = [Some {| resolvedFileName := Sample.bPath; extension := Ts |}]
  ∧ fst (resolveModuleNames (E:=Sample.env) st2 Sample.diskLater ["./b.vue"]
           Sample.aPath)
    = [Some {| resolvedFileName := Sample.bPath; extension := Js |}].
Proof. by vm_compute. Qed.

(** The stale dialect in general, at work on the sample: the second
    resolution repeats the first. *)
Example resolution_keeps_first_dialect_sample :
  fst (resolveModuleName (E:=Sample.env)
         (snd (resolveModuleName (E:=Sample.env) Sample.emptyProject
                 Sample.disk Sample.aPath "./b.vue"))
         Sample.diskLater Sample.aPath "./b.vue")
  = fst (resolveModuleName (E:=Sample.env) Sample.emptyProject Sample.disk
           Sample.aPath "./b.vue").
Proof.
  apply (resolution_keeps_first_dialect (E:=Sample.env) Sample.emptyProject
           Sample.disk Sample.diskLater Sample.aPath "./b.vue"
           Sample.bText Sample.bTextUntyped sample_cacheReusesEntry);
    by vm_compute.
Qed.

(** C8 at work: a tracked file, a file read from disk, a file that cannot
    be read, and a mixed-content file that cannot be read. *)
Lemma C8_witness :
  let st :=
    updateCurrentTextDocument (E:=Sample.env) Sample.emptyProject Sample.docA in
  snapshot_text (getScriptSnapshot (E:=Sample.env) st Sample.disk Sample.aPath)
  = Sample.aText
  ∧ snapshot_text
      (getScriptSnapshot (E:=Sample.env) st Sample.disk Sample.bPath)
    = Sample.bText
  ∧ snapshot_text (getScriptSnapshot (E:=Sample.env) st ∅ "/p/gone.js") = ""
  ∧ snapshot_text (getScriptSnapshot (E:=Sample.env) st ∅ Sample.bPath)
    = "export default {};".
Proof.
  intros st.
  assert (Ha : Sample.aPath ≠ bridge_fileName (Env:=Sample.env))
    by (by vm_compute).
  assert (Hb : Sample.bPath ≠ bridge_fileName (Env:=Sample.env))
    by (by vm_compute).
  assert (Hgone : "/p/gone.js" ≠ bridge_fileName (Env:=Sample.env))
    by (by vm_compute).
  split_and!.
  - refine (proj1 (proj2 (C8_snapshot_text (E:=Sample.env) st Sample.disk
                            Sample.aPath) Ha)
              (Sample.embeddedScript Sample.docA) _).
    by vm_compute.
  - refine (proj1 (proj2 (proj2 (C8_snapshot_text (E:=Sample.env) st
                                   Sample.disk Sample.bPath) Hb) _)
              Sample.bText _); by vm_compute.
  - refine (proj2 (proj2 (proj2 (C8_snapshot_text (E:=Sample.env) st ∅
                                   "/p/gone.js") Hgone) _) _); by vm_compute.
  - refine (proj2 (proj2 (proj2 (C8_snapshot_text (E:=Sample.env) st ∅
                                   Sample.bPath) Hb) _) _); by vm_compute.
Defined.

(** * The feature gate of the mode *)

Section ModeProperties.
Context {E : Env} {L : LanguageService}.
Implicit Types (st : State) (doc : TextDocument) (fs : Disk).

(** Every feature operation begins with the update step. *)
Lemma doValidation_state st fs doc :
  out_state (doValidation st fs doc) = updateCurrentTextDocument st doc.
Proof. reflexivity. Qed.

Lemma languageServiceIncludesFile_excluded st fs (documentUri : string) :
  getFilePath documentUri ∉ getRootFileNames st fs →
  languageServiceIncludesFile st fs documentUri
  = ([CallGetProgram], Returned false).
Proof.
  intros Hout. unfold languageServiceIncludesFile. simpl.
  by rewrite (bool_decide_eq_false_2 _ Hout).
Qed.

(** A [map] whose callback reads [currentTextDocument] returns for the
    empty array only. *)
Lemma svc_mapM_reads_current {A B : Type} (g : TextDocument → A → B)
    (l : list A) :
  svc_mapM (λ a, document ←ˢ read_currentTextDocument;
                 svc_ret (g document a)) l
  = match l with
    | [] => svc_ret []
    | _ :: _ => svc_throw
    end.
Proof. by destruct l. Qed.

Lemma languageServiceIncludesFile_included st fs (documentUri : string) :
  getFilePath documentUri ∈ getRootFileNames st fs →
  languageServiceIncludesFile st fs documentUri
  = ([CallGetProgram], Returned true).
Proof.
  intros Hin. unfold languageServiceIncludesFile. simpl.
  by rewrite (bool_decide_eq_true_2 _ Hin).
Qed.

(** The gate is a real one: for a root file, validation goes on to ask
    the service about the file.  It returns when the service reports no
    diagnostic; the conversion of the first diagnostic reads
    [currentTextDocument] and throws. *)
Lemma doValidation_included st fs doc :
  getFilePath (uri doc)
    ∈ getRootFileNames (updateCurrentTextDocument st doc) fs →
  out_run (doValidation st fs doc)
  = ([CallGetProgram;
      CallGetSyntacticDiagnostics (getFileFsPath (uri doc));
      CallGetSemanticDiagnostics (getFileFsPath (uri doc))],
     match
       getSyntacticDiagnostics (updateCurrentTextDocument st doc) fs
         (getFileFsPath (uri doc))
       ++ getSemanticDiagnostics (updateCurrentTextDocument st doc) fs
            (getFileFsPath (uri doc))
     with
     | [] => Returned []
     | _ :: _ => Thrown
     end).
Proof.
  intros Hin. unfold doValidation.
  rewrite (languageServiceIncludesFile_included _ _ _ Hin).
  cbn [out_run svc_bind svc_call svc_ret negb app].
  rewrite (svc_mapM_reads_current
             (λ document diag,
                {| diag_range := convertRange document (tsdiag_span diag);
                   diag_severity := SeverityError;
                   diag_message :=
                     flattenDiagnosticMessageText (messageText diag)
                       newline |})).
  by destruct (_ ++ _).
Qed.

(** C10.  When, after the update step, the path of the document (as
    [getFilePath] computes it) is not among the root file names of the
    program, each of the nine feature operations returns its empty or null
    result, and the only call it has made on the service is [getProgram],
    which names no file. *)
Theorem C10_excluded_file_gets_empty_answers st fs doc
    (position : Position) (item : CompletionItem) :
  getFilePath (uri doc)
    ∉ getRootFileNames (updateCurrentTextDocument st doc) fs →
  out_run (doValidation st fs doc) = ([CallGetProgram], Returned [])
  ∧ out_run (doComplete st fs doc position)
    = ([CallGetProgram], Returned {| isIncomplete := false; items := [] |})
  ∧ out_run (doResolve st fs doc item)
    = ([CallGetProgram], Returned NULL_COMPLETION)
  ∧ out_run (doHover st fs doc position)
    = ([CallGetProgram],
       Returned {| contents := []; hover_range := None |})
  ∧ out_run (doSignatureHelp st fs doc position)
    = ([CallGetProgram], Returned NULL_SIGNATURE)
  ∧ out_run (findDocumentHighlight st fs doc position)
    = ([CallGetProgram], Returned [])
  ∧ out_run (findDocumentSymbols st fs doc) = ([CallGetProgram], Returned [])
  ∧ out_run (findDefinition st fs doc position)
    = ([CallGetProgram], Returned [])
  ∧ out_run (findReferences st fs doc position)
    = ([CallGetProgram], Returned [])
  ∧ call_file CallGetProgram = None.
Proof.
  intros Hout.
  unfold doValidation, doComplete, doResolve, doHover, doSignatureHelp,
    findDocumentHighlight, findDocumentSymbols, findDefinition,
    findReferences.
  rewrite (languageServiceIncludesFile_excluded _ _ _ Hout).
  by split_and!.
Qed.

End ModeProperties.

(** C10 at work: a script file that is no root file of the program. *)
Lemma C10_witness :
  (getFilePath (E:=Sample.env) (uri Sample.docJs)
     ∉ getRootFileNames (LanguageService:=Sample.service)
         (updateCurrentTextDocument (E:=Sample.env) Sample.emptyProject
            Sample.docJs) Sample.disk)
  ∧ out_run (doValidation (E:=Sample.env) (L:=Sample.service)
               Sample.emptyProject Sample.disk Sample.docJs)
    = ([CallGetProgram], Returned [])
  ∧ out_run (doHover (E:=Sample.env) (L:=Sample.service)
               Sample.emptyProject Sample.disk Sample.docJs
               {| line := 0; character := 3 |})
    = ([CallGetProgram], Returned {| contents := []; hover_range := None |}).
Proof.
  assert (Hout : getFilePath (E:=Sample.env) (uri Sample.docJs)
                 ∉ getRootFileNames (LanguageService:=Sample.service)
                     (updateCurrentTextDocument (E:=Sample.env)
                        Sample.emptyProject Sample.docJs) Sample.disk).
  { vm_compute. by intros ?%elem_of_nil. }
  destruct (C10_excluded_file_gets_empty_answers (E:=Sample.env)
              (L:=Sample.service) Sample.emptyProject Sample.disk Sample.docJs
              {| line := 0; character := 3 |}
              (NULL_COMPLETION (LanguageService:=Sample.service)) Hout)
    as (Hvalidation & _ & _ & Hhover & _).
  split_and!; [exact Hout|exact Hvalidation|exact Hhover].
Defined.

(** * Further properties of the host *)

Section HostMore.
Context {E : Env}.
Implicit Types (st : State) (doc : TextDocument) (fs : Disk).

(** ** Repeated updates *)

Lemma documentChanged_after_update st doc :
  cacheKeepsIdentity → currentIsTracked st →
  documentChanged (updateCurrentTextDocument st doc) doc = false.
Proof.
  intros Hkeep Hinv. unfold documentChanged at 1. rewrite update_current.
  destruct (documentChanged st doc) eqn:Hguard.
  - unfold cachedScript. destruct (Hkeep (jsDocuments st) doc) as [-> ->].
    by rewrite !bool_decide_eq_true_2.
  - unfold documentChanged in Hguard.
    by destruct (currentTextDocument st).
Qed.

Lemma addToFiles_tracked st (p : string) :
  is_Some (docs st !! p) → addToFiles st p = files st.
Proof.
  intros Hp. unfold addToFiles. by rewrite bool_decide_eq_true_2.
Qed.

(** X1.  Submitting the same document a second time changes nothing:
    when the cache keeps URI and version and the current document is
    tracked, the state after two updates with one document is the state
    after the first. *)
Theorem X1_update_twice_is_update_once st doc :
  cacheKeepsIdentity → currentIsTracked st →
  updateCurrentTextDocument (updateCurrentTextDocument st doc) doc
  = updateCurrentTextDocument st doc.
Proof.
  intros Hkeep Hinv.
  pose proof (documentChanged_after_update st doc Hkeep Hinv) as Hguard.
  pose proof (update_tracks_path st doc Hinv) as Htracked.
  unfold updateCurrentTextDocument at 1. rewrite Hguard.
  rewrite (addToFiles_tracked _ _ Htracked).
  by destruct (updateCurrentTextDocument st doc).
Qed.

(** ** Counters and tracked documents go together *)

Lemma update_versionedIffTracked st doc :
  versionedIffTracked st →
  versionedIffTracked (updateCurrentTextDocument st doc).
Proof.
  intros Hinv p. rewrite update_docs, update_versions.
  destruct (documentChanged st doc); [|apply Hinv].
  destruct (decide (getFileFsPath (uri doc) = p)) as [->|Hne].
  - rewrite !lookup_insert_eq. split; [by split; eexists|].
    intros v [= <-].
    pose proof (number_add1_bounds (or_zero (versions st !! p))) as Hadd.
    destruct (versions st !! p) as [v|] eqn:Hv; simpl in *.
    + destruct (Hinv p) as [_ Hpos]. specialize (Hpos v Hv).
      unfold number_add1 in *. case_bool_decide; lia.
    + unfold number_add1, MAX_SAFE in *. by rewrite bool_decide_eq_true_2.
  - rewrite !lookup_insert_ne by done. apply Hinv.
Qed.

Lemma hostStep_versionedIffTracked st (c : HostCall) :
  versionedIffTracked st → versionedIffTracked (hostStep st c).
Proof.
  intros Hinv.
  destruct c as [doc| | | | | |]; [by apply update_versionedIffTracked|..];
    other_call H; destruct H as (_&_&Hv&Hd&_&_);
    intros p; rewrite Hv, Hd; apply Hinv.
Qed.

(** X2.  In every state a session reaches, a path has a version counter
    exactly when it has a tracked document, and every stored counter is at
    least 1. *)
Theorem X2_versioned_iff_tracked (cache : DocumentCache)
    (fileNames : list string) (options : CompilerOptions)
    (calls : list HostCall) (p : string) :
  let st := session (createLanguageService cache fileNames options) calls in
  (is_Some (docs st !! p) ↔ is_Some (versions st !! p))
  ∧ (∀ v, versions st !! p = Some v → (1 ≤ v)%Z).
Proof.
  revert p.
  change (versionedIffTracked
            (session (createLanguageService cache fileNames options) calls)).
  apply session_invariant.
  - intros p. simpl. rewrite !lookup_empty. split; [|done].
    split; by intros [? ?].
  - intros s c. apply hostStep_versionedIffTracked.
Qed.

(** X3.  Nothing a host is asked to do later untracks a document or
    lowers a counter: along any continuation of a session, a tracked path
    stays tracked and the counter of every path stays or grows. *)
Theorem X3_tracking_is_permanent st (calls : list HostCall) (p : string) :
  (is_Some (docs st !! p) → is_Some (docs (session st calls) !! p))
  ∧ (versionOf st p ≤ versionOf (session st calls) p)%Z.
Proof.
  induction calls as [|c calls [IHdocs IHversions]] using rev_ind.
  - split; [done|]. simpl. lia.
  - rewrite session_snoc. destruct c as [doc| | | | | |].
    2-7: other_call H; destruct H as (_&_&Hv&Hd&_&_);
      unfold versionOf in *; rewrite Hv, Hd; by split.
    simpl. split.
    + intros Hp. by apply update_keeps_tracked, IHdocs.
    + pose proof (update_versionOf_bounds (session st calls) doc p). lia.
Qed.

(** ** The version string *)

Lemma getScriptVersion_pretty st (fileName : string) :
  fileName ≠ bridge_fileName →
  getScriptVersion st fileName
  = pretty (versionOf st (getNormalizedFileFsPath fileName)).
Proof.
  intros Hbridge. unfold getScriptVersion, versionOf.
  rewrite (bool_decide_eq_false_2 _ Hbridge).
  destruct (versions st !! getNormalizedFileFsPath fileName) as [v|];
    [|done].
  simpl. case_bool_decide as Hv; [by rewrite Hv|done].
Qed.

Lemma update_versionOf_path st doc :
  (versionOf st (getFileFsPath (uri doc)) < MAX_SAFE)%Z →
  versionOf (updateCurrentTextDocument st doc) (getFileFsPath (uri doc))
  = if documentChanged st doc
    then (versionOf st (getFileFsPath (uri doc)) + 1)%Z
    else versionOf st (getFileFsPath (uri doc)).
Proof.
  intros Hsafe.
  pose proof (update_versionOf_bounds st doc (getFileFsPath (uri doc))).
  unfold versionOf in *. rewrite update_versions in *.
  destruct (documentChanged st doc); [|done].
  rewrite lookup_insert_eq in *. simpl in *.
  by apply number_add1_exact.
Qed.

(** X4.  The version string that the service reads for the file of an
    update changes exactly when the update passes the guard of line 55
    (the counter being below [2^53]): an accepted update is always seen
    by the service, a repeated one never is. *)
Theorem X4_script_version_follows_update st doc (fileName : string) :
  fileName ≠ bridge_fileName →
  getNormalizedFileFsPath fileName = getFileFsPath (uri doc) →
  (versionOf st (getFileFsPath (uri doc)) < MAX_SAFE)%Z →
  getScriptVersion (updateCurrentTextDocument st doc) fileName
    = getScriptVersion st fileName
  ↔ documentChanged st doc = false.
Proof.
  intros Hbridge Hpath Hsafe.
  rewrite !getScriptVersion_pretty, Hpath by done.
  rewrite (update_versionOf_path st doc Hsafe).
  destruct (documentChanged st doc); split; try done.
  intros Heq%(inj pretty). lia.
Qed.

End HostMore.

Section HostMore2.
Context {E : Env}.
Implicit Types (st : State) (doc : TextDocument) (fs : Disk).

Lemma session_versionedIffTracked (cache : DocumentCache)
    (fileNames : list string) (options : CompilerOptions)
    (calls : list HostCall) :
  versionedIffTracked
    (session (createLanguageService cache fileNames options) calls).
Proof.
  apply session_invariant.
  - intros p. simpl. rewrite !lookup_empty. split; [|done].
    split; by intros [? ?].
  - intros s c. apply hostStep_versionedIffTracked.
Qed.

(** X5.  In every state a session reaches, the version string of a file
    other than the bridge is ["0"] exactly when no document is tracked
    under its normalised path. *)
Theorem X5_version_zero_iff_untracked (cache : DocumentCache)
    (fileNames : list string) (options : CompilerOptions)
    (calls : list HostCall) (fileName : string) :
  fileName ≠ bridge_fileName →
  let st := session (createLanguageService cache fileNames options) calls in
  getScriptVersion st fileName = "0"
  ↔ docs st !! getNormalizedFileFsPath fileName = None.
Proof.
  intros Hbridge st.
  destruct (session_versionedIffTracked cache fileNames options calls
              (getNormalizedFileFsPath fileName)) as [Hiff Hpos].
  fold st in Hiff, Hpos.
  rewrite getScriptVersion_pretty by done. unfold versionOf.
  change "0" with (pretty 0%Z).
  destruct (versions st !! getNormalizedFileFsPath fileName) as [v|] eqn:Hv;
    simpl.
  - specialize (Hpos v eq_refl). split.
    + intros Heq%(inj pretty). lia.
    + intros Hnone. destruct Hiff as [_ Hback].
      destruct Hback as [d Hd]; [by eexists|]. by rewrite Hnone in Hd.
  - split; [|done]. intros _.
    destruct (docs st !! getNormalizedFileFsPath fileName) eqn:Hd; [|done].
    destruct Hiff as [Hforth _]. destruct Hforth as [? ?]; [by eexists|done].
Qed.

(** X6.  After an update the snapshot of the document's file is made of
    the text of the current document, whatever the disk holds: for a file
    name other than the bridge whose normalised path is the path of the
    submitted document, the snapshot is that text, passed through
    [parseVue] when the file name is a mixed-content one. *)
Theorem X6_snapshot_after_update st doc (fileName : string) :
  currentIsTracked st →
  fileName ≠ bridge_fileName →
  getNormalizedFileFsPath fileName = getFileFsPath (uri doc) →
  ∃ cur,
    currentTextDocument (updateCurrentTextDocument st doc) = Some cur
    ∧ ∀ fs,
        snapshot_text
          (getScriptSnapshot (updateCurrentTextDocument st doc) fs fileName)
        = if isVue fileName then parseVue (getText cur) else getText cur.
Proof.
  intros Hinv Hbridge Hpath.
  assert (∃ cur,
            currentTextDocument (updateCurrentTextDocument st doc) = Some cur
            ∧ docs (updateCurrentTextDocument st doc)
                !! getFileFsPath (uri doc) = Some cur) as (cur & Hcur & Hdoc).
  { rewrite update_current, update_docs.
    destruct (documentChanged st doc) eqn:Hguard.
    - eexists. split; [done|]. by rewrite lookup_insert_eq.
    - unfold documentChanged in Hguard.
      destruct (currentTextDocument st) as [cur|] eqn:Hcur; [|done].
      apply orb_false_elim in Hguard as [Huri _].
      apply negb_false_iff, bool_decide_eq_true in Huri.
      exists cur. split; [done|]. rewrite Huri. by apply Hinv. }
  exists cur. split; [done|]. intros fs. unfold getScriptSnapshot.
  rewrite (bool_decide_eq_false_2 _ Hbridge). simpl.
  by rewrite Hpath, Hdoc.
Qed.

(** X8.  With a cache that keeps the URI, the root file list of every
    state a session reaches is the configured list followed by paths that
    are pairwise distinct, end in [.vue] and are tracked. *)
Theorem X8_root_files_shape (cache : DocumentCache)
    (fileNames : list string) (options : CompilerOptions)
    (calls : list HostCall) :
  cacheKeepsIdentity →
  let st := session (createLanguageService cache fileNames options) calls in
  ∃ added : list string,
    files st = fileNames ++ added
    ∧ NoDup added
    ∧ ∀ p, p ∈ added → endsWith p ".vue" = true ∧ is_Some (docs st !! p).
Proof.
  intros Hkeep st.
  destruct (session_appendedOnce cache fileNames options calls Hkeep)
    as (added & Hfiles & Hnodup & Htracked).
  fold st in Hfiles, Htracked.
  exists added. split_and!; [done|done|].
  assert (∃ added',
            files st = fileNames ++ added'
            ∧ Forall (λ p, endsWith p ".vue" = true) added')
    as (added' & Hfiles' & Hvue).
  { apply (session_invariant
             (λ s, ∃ added',
                files s = fileNames ++ added'
                ∧ Forall (λ p, endsWith p ".vue" = true) added')).
    - exists []. simpl. by rewrite app_nil_r.
    - intros s c (added' & Hs & Hall).
      destruct c as [doc| | | | | |];
        [|other_call H; destruct H as (_&_&_&_&->&_); eauto..].
      simpl. rewrite update_files.
      destruct (addToFiles_cases s (getFileFsPath (uri doc)))
        as [->|(-> & _ & Hvue)]; [eauto|].
      exists (added' ++ [getFileFsPath (uri doc)]).
      rewrite Hs, <- app_assoc. split; [done|].
      apply Forall_app. split; [done|]. by constructor. }
  rewrite Hfiles in Hfiles'. apply app_inv_head in Hfiles' as <-.
  intros p Hp. split; [|by apply Htracked].
  by eapply Forall_forall in Hvue.
Qed.

(** One host call of a session whose updates all bring a script of one
    dialect. *)
Lemma hostStep_one_dialect (l : string) st (c : HostCall) :
  match c with
  | HostUpdate doc =>
      documentChanged st doc = true → languageId (cachedScript st doc) = l
  | _ => True
  end →
  (∀ p d, docs st !! p = Some d → languageId d = l) →
  (∀ p d, docs (hostStep st c) !! p = Some d → languageId d = l)
  ∧ semanticCacheCleanups (hostStep st c) = semanticCacheCleanups st
  ∧ compilerOptions (hostStep st c) = compilerOptions st.
Proof.
  intros Hc Hdocs.
  destruct c as [doc| | | | | |];
    [|other_call H; destruct H as (->&_&_&->&_&->); done..].
  simpl.
  rewrite update_docs, update_semanticCacheCleanups, update_compilerOptions.
  destruct (documentChanged st doc); [|done]. specialize (Hc eq_refl).
  assert (languageIdChanged (docs st !! getFileFsPath (uri doc))
            (cachedScript st doc) = false) as Hsame.
  { unfold languageIdChanged.
    destruct (docs st !! getFileFsPath (uri doc)) as [lastDoc|] eqn:Hlast;
      [|done].
    rewrite Hc, (Hdocs _ _ Hlast). by rewrite bool_decide_eq_true_2. }
  split_and!.
  - intros p d.
    destruct (decide (getFileFsPath (uri doc) = p)) as [->|Hne].
    + rewrite lookup_insert_eq. by intros [= <-].
    + rewrite lookup_insert_ne by done. by apply Hdocs.
  - by rewrite Hsame.
  - destruct (docs st !! getFileFsPath (uri doc)) as [lastDoc|]; [|done].
    by rewrite Hsame.
Qed.

Lemma session_one_dialect_docs (l : string) st (calls : list HostCall) :
  updatesBring l st calls →
  (∀ p d, docs st !! p = Some d → languageId d = l) →
  (∀ p d, docs (session st calls) !! p = Some d → languageId d = l)
  ∧ semanticCacheCleanups (session st calls) = semanticCacheCleanups st
  ∧ compilerOptions (session st calls) = compilerOptions st.
Proof.
  revert st. induction calls as [|c calls IH]; intros st; [done|].
  intros [Hc Hrest] Hdocs.
  destruct (hostStep_one_dialect l st c Hc Hdocs) as (Hdocs' & <- & <-).
  exact (IH (hostStep st c) Hrest Hdocs').
Qed.

(** X9.  A session in which the document cache hands every accepted
    update a script of one and the same dialect never invalidates the
    semantic cache and leaves the compiler settings as they were at
    creation. *)
Theorem X9_one_dialect_never_invalidates (l : string)
    (cache : DocumentCache) (fileNames : list string)
    (options : CompilerOptions) (calls : list HostCall) :
  updatesBring l (createLanguageService cache fileNames options) calls →
  let st := session (createLanguageService cache fileNames options) calls in
  semanticCacheCleanups st = 0%nat
  ∧ compilerOptions st
    = {| allowNonTsExtensions := true; allowJs := allowJs options |}.
Proof.
  intros Hcalls.
  destruct (session_one_dialect_docs l
              (createLanguageService cache fileNames options) calls Hcalls)
    as (_ & Hclean & Hopts); [|done].
  intros p d Hp. simpl in Hp. by rewrite lookup_empty in Hp.
Qed.

(** X10.  Whatever dialect changes a session goes through, the setting
    [allowNonTsExtensions] that line 45 forces to [true] stays [true], and
    the cache is cleaned at most once per host call. *)
Theorem X10_allowNonTsExtensions_stays (cache : DocumentCache)
    (fileNames : list string) (options : CompilerOptions)
    (calls : list HostCall) :
  let st := session (createLanguageService cache fileNames options) calls in
  allowNonTsExtensions (compilerOptions st) = true
  ∧ (semanticCacheCleanups st ≤ length calls)%nat.
Proof.
  induction calls as [|c calls [IHopt IHclean]] using rev_ind; [done|].
  rewrite session_snoc, length_app. simpl.
  set (s := session (createLanguageService cache fileNames options) calls)
    in *.
  destruct c as [doc| | | | | |];
    [|other_call H; destruct H as (->&_&_&_&_&->); split; [done|lia]..].
  simpl. rewrite update_semanticCacheCleanups, update_compilerOptions.
  destruct (documentChanged s doc); simpl; [|split; [done|lia]].
  destruct (docs s !! getFileFsPath (uri doc)) as [lastDoc|]; simpl;
    [|split; [done|lia]].
  destruct (negb _); simpl; split; try done; lia.
Qed.

End HostMore2.

(** ** The closures of a snapshot *)

Lemma substring_all (s : string) : substring 0 (String.length s) s = s.
Proof. induction s as [|c s IH]; simpl; [done|]. by rewrite IH. Qed.

Lemma length_substring_le (n m : nat) (s : string) :
  (String.length (substring n m s) ≤ m)%nat.
Proof.
  revert n m. induction s as [|c s IH]; intros [|n] [|m]; simpl;
    try lia.
  - specialize (IH 0%nat m). lia.
  - apply (IH n 0%nat).
  - apply (IH n (S m)).
Qed.

(** X7.  The closures of a snapshot agree with each other: reading from
    0 to [getLength()] gives the whole text, and no read, whatever its
    bounds and their order, is longer than [getLength()]. *)
Theorem X7_snapshot_reads (s : IScriptSnapshot) (start end_ : Z) :
  snapshot_getText s 0 (snapshot_getLength s) = snapshot_text s
  ∧ (Z.of_nat (String.length (snapshot_getText s start end_))
     ≤ snapshot_getLength s)%Z.
Proof.
  unfold snapshot_getText, snapshot_getLength, js_substring. split.
  - set (len := String.length (snapshot_text s)).
    replace (Z.to_nat (Z.min _ _)) with 0%nat by lia.
    replace (Z.to_nat (_ - _)) with len by lia.
    apply substring_all.
  - etrans; [apply inj_le, length_substring_le|]. lia.
Qed.

(** * Further properties of the mode *)

(** ** How service computations end *)

Lemma svc_bind_thrown {A B : Type} (m : Svc A) (k : A → Svc B) :
  snd (svc_bind m k) = Thrown ↔
  snd m = Thrown ∨ ∃ a, snd m = Returned a ∧ snd (k a) = Thrown.
Proof.
  destruct m as [calls [a|]]; simpl.
  - destruct (k a) as [calls' r] eqn:Hk. simpl. split.
    + intros ->. right. exists a. by rewrite Hk.
    + intros [?|(a' & [= <-] & Ha)]; [done|]. by rewrite Hk in Ha.
  - split; [by left|done].
Qed.

Section ModeMore.
Context {E : Env} {L : LanguageService}.
Implicit Types (st : State) (doc : TextDocument) (fs : Disk).

Lemma languageServiceIncludesFile_result st fs (documentUri : string) :
  snd (languageServiceIncludesFile st fs documentUri)
  = Returned (bool_decide (getFilePath documentUri ∈ getRootFileNames st fs)).
Proof. reflexivity. Qed.

(** ** Mixed-content documents pass the gate *)

Lemma update_vue_in_files st doc :
  trackedVueInRoot st →
  endsWith (getFileFsPath (uri doc)) ".vue" = true →
  getFileFsPath (uri doc) ∈ files (updateCurrentTextDocument st doc).
Proof.
  intros Hinv Hvue. rewrite update_files. unfold addToFiles.
  destruct (docs st !! getFileFsPath (uri doc)) as [d|] eqn:Hd; simpl.
  - by eapply Hinv.
  - rewrite Hvue. apply elem_of_app. right. by apply list_elem_of_singleton.
Qed.

(** X11.  A mixed-content document is never stopped at the gate, be it
    its first update or a later one: when the roots of the program are
    the host's file list and [getFilePath] agrees with [getFileFsPath] on
    the document's URI (as on POSIX), validation of a document whose path
    ends in [.vue] asks the service for the diagnostics of that path.  It
    then returns the empty list when the service has no diagnostic for
    the file, and throws when it has one: converting a diagnostic reads
    [currentTextDocument], which [javascript.ts] does not declare. *)
Theorem X11_vue_document_passes_gate st fs doc :
  trackedVueInRoot st →
  endsWith (getFileFsPath (uri doc)) ".vue" = true →
  getFilePath (uri doc) = getFileFsPath (uri doc) →
  getRootFileNames (updateCurrentTextDocument st doc) fs
  = files (updateCurrentTextDocument st doc) →
  out_run (doValidation st fs doc)
  = ([CallGetProgram;
      CallGetSyntacticDiagnostics (getFileFsPath (uri doc));
      CallGetSemanticDiagnostics (getFileFsPath (uri doc))],
     match
       getSyntacticDiagnostics (updateCurrentTextDocument st doc) fs
         (getFileFsPath (uri doc))
       ++ getSemanticDiagnostics (updateCurrentTextDocument st doc) fs
            (getFileFsPath (uri doc))
     with
     | [] => Returned []
     | _ :: _ => Thrown
     end).
Proof.
  intros Hinv Hvue Hpath Hroots. apply doValidation_included.
  rewrite Hpath, Hroots. by apply update_vue_in_files.
Qed.

(** ** Completion items and their resolution *)

Lemma doResolve_thrown st fs doc (item : CompletionItem) :
  out_result (doResolve st fs doc item) = Thrown
  ↔ getFilePath (uri doc)
      ∈ getRootFileNames (updateCurrentTextDocument st doc) fs
    ∧ data item = None.
Proof.
  unfold out_result, doResolve. cbn [out_run].
  rewrite svc_bind_thrown, languageServiceIncludesFile_result.
  split.
  - intros [?|(included & [= <-] & Hrest)]; [done|].
    case_bool_decide as Hin; cbn [negb] in Hrest; [|done].
    split; [done|].
    destruct (data item) as [d|]; [|done].
    apply svc_bind_thrown in Hrest as [?|(details & _ & Hrest)]; [done|].
    by destruct details.
  - intros [Hin Hdata]. right. eexists. split; [done|].
    by rewrite (bool_decide_eq_true_2 _ Hin), Hdata.
Qed.

(** X12.  For a root file the four requests at a position that the mode
    answers from the service ([doComplete], [doHover],
    [doSignatureHelp], [findDocumentHighlight]) all throw, and they do so
    before the service is asked about the file: the offset of the
    position is read from [currentTextDocument], which [javascript.ts]
    does not declare.  With C10 this means that these requests return for
    the files outside the program only, and then with their empty
    value. *)
Theorem X12_position_requests_throw st fs doc (position : Position) :
  getFilePath (uri doc)
    ∈ getRootFileNames (updateCurrentTextDocument st doc) fs →
  out_run (doComplete st fs doc position) = ([CallGetProgram], Thrown)
  ∧ out_run (doHover st fs doc position) = ([CallGetProgram], Thrown)
  ∧ out_run (doSignatureHelp st fs doc position) = ([CallGetProgram], Thrown)
  ∧ out_run (findDocumentHighlight st fs doc position)
    = ([CallGetProgram], Thrown).
Proof.
  intros Hin.
  unfold doComplete, doHover, doSignatureHelp, findDocumentHighlight.
  rewrite (languageServiceIncludesFile_included _ _ _ Hin).
  by split_and!.
Qed.

(** X13.  [doResolve] throws exactly when the document passes the gate
    and the item has no [data] object; and then it has not asked the
    service about any file. *)
Theorem X13_doResolve_throws_iff st fs doc (item : CompletionItem) :
  (out_result (doResolve st fs doc item) = Thrown
   ↔ getFilePath (uri doc)
       ∈ getRootFileNames (updateCurrentTextDocument st doc) fs
     ∧ data item = None)
  ∧ (out_result (doResolve st fs doc item) = Thrown →
     out_calls (doResolve st fs doc item) = [CallGetProgram]).
Proof.
  split; [apply doResolve_thrown|].
  intros [Hin Hdata]%doResolve_thrown.
  unfold out_calls, doResolve. cbn [out_run].
  rewrite (languageServiceIncludesFile_included _ _ _ Hin). simpl.
  by rewrite Hdata.
Qed.

(** ** Definitions and references *)

(** X14.  For a root file [findDefinition] and [findReferences] throw
    before the service is asked about the file, for the same reason: no
    location is ever returned. *)
Theorem X14_definition_and_references_throw st fs doc
    (position : Position) :
  getFilePath (uri doc)
    ∈ getRootFileNames (updateCurrentTextDocument st doc) fs →
  out_run (findDefinition st fs doc position) = ([CallGetProgram], Thrown)
  ∧ out_run (findReferences st fs doc position) = ([CallGetProgram], Thrown).
Proof.
  intros Hin. unfold findDefinition, findReferences.
  rewrite (languageServiceIncludesFile_included _ _ _ Hin).
  by split.
Qed.

End ModeMore.

(** ** Document symbols *)

Section Symbols.
Context {E : Env} {L : LanguageService}.
Implicit Types (st : State) (doc : TextDocument) (fs : Disk).

Lemma NavigationBarItem_forall_ind (P : NavigationBarItem → Prop) :
  (∀ text kind spans childItems,
     Forall P childItems →
     P (mkNavigationBarItem text kind spans childItems)) →
  ∀ item, P item.
Proof.
  intros Hstep. fix IH 1. intros [text kind spans childItems].
  apply Hstep. induction childItems as [|child rest IHrest].
  - constructor.
  - constructor; [apply IH|exact IHrest].
Qed.

Lemma nav_preorder_unfold (text kind : string) (spans : list TextSpan)
    (childItems : list NavigationBarItem) :
  nav_preorder (mkNavigationBarItem text kind spans childItems)
  = mkNavigationBarItem text kind spans childItems
    :: flat_map nav_preorder childItems.
Proof. reflexivity. Qed.

(** The loop over the children is [collectList]. *)
Lemma collectSymbols_unfold (docUri text kind : string)
    (spans : list TextSpan) (childItems : list NavigationBarItem)
    (containerLabel : option string)
    (result : list SymbolInformation) (existing : gset string) :
  collectSymbols docUri (mkNavigationBarItem text kind spans childItems)
    containerLabel (result, existing)
  = match spans with
    | [] => Thrown
    | span0 :: _ =>
        if negb (bool_decide (kind = "script"))
           && negb (bool_decide
                      (text +:+ kind +:+ pretty (span_start span0)
                       ∈ existing))
        then Thrown
        else collectList docUri containerLabel childItems (result, existing)
    end.
Proof.
  simpl. destruct spans as [|span0 spans]; [done|].
  destruct (negb _ && negb _); [done|].
  generalize (result, existing).
  induction childItems as [|child rest IH]; intros acc; [done|].
  simpl. destruct (collectSymbols _ child _ acc); [apply IH|done].
Qed.

(** No symbol is ever built, so that nothing is ever remembered: the
    traversal of a tree hands back what it was given when every item of
    the tree is a script node with a span, and throws otherwise. *)
Lemma collectSymbols_outcome (docUri : string) (item : NavigationBarItem) :
  ∀ (containerLabel : option string) (result : list SymbolInformation),
    collectSymbols docUri item containerLabel (result, ∅)
    = if forallb scriptItem (nav_preorder item) then Returned (result, ∅)
      else Thrown.
Proof.
  induction item as [text kind spans childItems IHchildren]
    using NavigationBarItem_forall_ind.
  intros containerLabel result.
  rewrite collectSymbols_unfold, nav_preorder_unfold.
  cbn [forallb]. unfold scriptItem at 1. cbn [nav_kind nav_spans].
  destruct spans as [|span0 spans]; [by rewrite andb_false_r|].
  rewrite (bool_decide_eq_false_2 (_ ∈ ∅)) by apply not_elem_of_empty.
  case_bool_decide as Hscript; cbn [negb andb]; [|done].
  clear Hscript.
  induction childItems as [|child rest IHrest]; [done|].
  apply Forall_cons in IHchildren as [IHchild IHchildren].
  cbn [collectList flat_map]. rewrite forallb_app, IHchild.
  destruct (forallb scriptItem (nav_preorder child)); [|done].
  by apply IHrest.
Qed.

Lemma collectAll_outcome (docUri : string) (items : list NavigationBarItem)
    (result : list SymbolInformation) :
  collectAll docUri items (result, ∅)
  = if forallb scriptItem (flat_map nav_preorder items)
    then Returned (result, ∅) else Thrown.
Proof.
  induction items as [|item rest IH]; [done|].
  cbn [collectAll flat_map]. rewrite forallb_app, collectSymbols_outcome.
  by destruct (forallb scriptItem (nav_preorder item)).
Qed.

Lemma languageServiceIncludesFile_run st fs (documentUri : string) :
  languageServiceIncludesFile st fs documentUri
  = ([CallGetProgram],
     Returned (bool_decide (getFilePath documentUri ∈ getRootFileNames st fs))).
Proof. reflexivity. Qed.

Lemma findDocumentSymbols_included st fs doc
    (navItems : list NavigationBarItem) :
  getFilePath (uri doc)
    ∈ getRootFileNames (updateCurrentTextDocument st doc) fs →
  getNavigationBarItems (updateCurrentTextDocument st doc) fs
    (getFileFsPath (uri doc)) = Some navItems →
  out_run (findDocumentSymbols st fs doc)
  = ([CallGetProgram; CallGetNavigationBarItems (getFileFsPath (uri doc))],
     if forallb scriptItem (flat_map nav_preorder navItems)
     then Returned [] else Thrown).
Proof.
  intros Hin Hitems. unfold findDocumentSymbols. cbn [out_run].
  rewrite (languageServiceIncludesFile_included _ _ _ Hin). simpl.
  rewrite Hitems, collectAll_outcome.
  by destruct (forallb _ _).
Qed.

(** X15.  [findDocumentSymbols] never returns a symbol.  For a root file
    it asks the service for the navigation items of the file; it returns
    the empty list when every item, at whatever depth, is a script node
    with a span, and it throws as soon as the traversal meets another
    item: building the symbol reads [currentTextDocument], which
    [javascript.ts] does not declare. *)
Theorem X15_no_symbol_is_returned st fs doc :
  (∀ symbols,
     out_result (findDocumentSymbols st fs doc) = Returned symbols →
     symbols = [])
  ∧ (∀ navItems : list NavigationBarItem,
       getFilePath (uri doc)
         ∈ getRootFileNames (updateCurrentTextDocument st doc) fs →
       getNavigationBarItems (updateCurrentTextDocument st doc) fs
         (getFileFsPath (uri doc)) = Some navItems →
       out_run (findDocumentSymbols st fs doc)
       = ([CallGetProgram;
           CallGetNavigationBarItems (getFileFsPath (uri doc))],
          if forallb scriptItem (flat_map nav_preorder navItems)
          then Returned [] else Thrown)).
Proof.
  split; [|apply findDocumentSymbols_included].
  intros symbols. unfold out_result, findDocumentSymbols. cbn [out_run].
  rewrite languageServiceIncludesFile_run.
  case_bool_decide; simpl; [|by intros [= <-]].
  destruct (getNavigationBarItems _ _ _) as [navItems|]; simpl;
    [|by intros [= <-]].
  rewrite collectAll_outcome.
  destruct (forallb _ _); simpl; [by intros [= <-]|done].
Qed.

(** X16.  For a root file, one navigation item without a span, wherever
    it sits in the trees, makes [findDocumentSymbols] throw. *)
Theorem X16_spanless_item_throws st fs doc
    (navItems : list NavigationBarItem) :
  getFilePath (uri doc)
    ∈ getRootFileNames (updateCurrentTextDocument st doc) fs →
  getNavigationBarItems (updateCurrentTextDocument st doc) fs
    (getFileFsPath (uri doc)) = Some navItems →
  Exists (λ i, nav_spans i = []) (flat_map nav_preorder navItems) →
  out_result (findDocumentSymbols st fs doc) = Thrown.
Proof.
  intros Hin Hitems Hbad. unfold out_result.
  rewrite (findDocumentSymbols_included _ _ _ _ Hin Hitems). simpl.
  destruct (forallb scriptItem (flat_map nav_preorder navItems)) eqn:Hall;
    [|done].
  rewrite forallb_forall in Hall.
  apply Exists_exists in Hbad as (item & Hitem & Hspans).
  apply list_elem_of_In in Hitem. specialize (Hall item Hitem).
  unfold scriptItem in Hall. rewrite Hspans in Hall.
  by rewrite andb_false_r in Hall.
Qed.

End Symbols.

(** ** Formatting *)

Section Formatting.
Context {E : Env} {L : LanguageService}.
Variable getFormattingEditsForRange :
  State → Disk → string → Z → Z → gmap string JsValue →
  option (list TextChange).
Implicit Types (st : State) (doc : TextDocument) (fs : Disk).

(** X17.  [format] never returns an edit: whatever the document, the
    range and the options, and whether or not the file is a root file
    ([format] has no gate), it throws after the update step and before
    the service is asked for its edits.  The start offset of the range is
    read from [currentTextDocument], which [javascript.ts] does not
    declare. *)
Theorem X17_format_always_throws (settings : ModeSettings) st fs doc
    (range : Range) (formatParams : FormattingOptions) :
  out_state
    (format getFormattingEditsForRange settings st fs doc range formatParams)
  = updateCurrentTextDocument st doc
  ∧ out_run
      (format getFormattingEditsForRange settings st fs doc range
         formatParams)
    = ([], Thrown).
Proof. done. Qed.

End Formatting.

(** X18.  After [configure] with a [vetur.format.js] object, the options
    that [format] computes take, key by key, the user's value where the
    object has the key and the default where it has not; so every key of
    the defaults is always defined. *)
Theorem X18_user_format_settings_win (settings : ModeSettings)
    (overrides : gmap string JsValue) (formatParams : FormattingOptions)
    (initialIndentLevel : Z) (key : string) :
  let options :=
    {| vetur :=
         Some {| vetur_format := Some {| format_js := Some overrides |} |} |} in
  ∃ settings',
    configure settings options = Returned settings'
    ∧ convertOptions formatParams (settings_format settings')
        initialIndentLevel !! key
      = match overrides !! key with
        | Some v => Some v
        | None =>
            defaultJsFormattingOptions formatParams initialIndentLevel !! key
        end
    ∧ (is_Some
         (defaultJsFormattingOptions formatParams initialIndentLevel !! key) →
       is_Some
         (convertOptions formatParams (settings_format settings')
            initialIndentLevel !! key)).
Proof.
  eexists. split; [done|]. simpl.
  destruct (overrides !! key) as [v|] eqn:Hkey.
  - rewrite (lookup_union_Some_l _ _ _ _ Hkey). split; [done|by eexists].
  - by rewrite (lookup_union_r _ _ _ Hkey).
Qed.

(** ** The script kind of a resolved import *)

Section ScriptKinds.
Context {E : Env}.
Variable getScriptKindFromFileName : string → ScriptKind.
Variable unreadableDocument :
  DocumentCache → string → Completion TextDocument * DocumentCache.
Implicit Types (st : State) (fs : Disk).

(** [getScriptKind] changes nothing of the host but the state of the
    document cache. *)
Lemma getScriptKind_sameButCache st fs (fileName : string) :
  sameButCache
    (snd (getScriptKind getScriptKindFromFileName unreadableDocument st fs
            fileName))
    st.
Proof.
  unfold getScriptKind.
  destruct (isVue fileName);
    [|case_bool_decide; apply sameButCache_refl].
  destruct (docs st !! _) as [d|].
  - apply sameButCache_refl.
  - destruct (readFile fs _) as [text|].
    + destruct (jsDocuments_get _ _) as [d cache]. by repeat split.
    + destruct (unreadableDocument _ _) as [[d|] cache]; by repeat split.
Qed.

(** X19.  The host tells the service one dialect per mixed-content
    import: when a relative import of a mixed-content document resolves,
    [getScriptKind] of the resolved file name, asked in the same state
    and on the same disk, returns the script kind that goes with the
    extension the resolver gave (TS for [Ts], JS for [Js]).  This needs
    the resolved path to be a mixed-content file name that [Uri.file]
    leaves as it is. *)
Theorem X19_script_kind_agrees_with_resolution st fs
    (containingFile name : string) (r : ResolvedModule) :
  name ≠ bridge_moduleName →
  path_isAbsolute name = false →
  isVue name = true →
  isVue (candidatePath containingFile name) = true →
  Uri_file_fsPath (candidatePath containingFile name)
  = candidatePath containingFile name →
  Uri_file_toString (candidatePath containingFile name)
  = Uri_file_toString (path_join (path_dirname containingFile) name) →
  fst (resolveModuleName st fs containingFile name) = Some r →
  fst (getScriptKind getScriptKindFromFileName unreadableDocument st fs
         (resolvedFileName r))
  = Returned (AnswerScriptKind (scriptKindOfExtension (extension r))).
Proof.
  intros Hbridge Habs Hvue Hvue' Hfs Hstring.
  rewrite (resolveModuleName_relative_vue st fs _ _ Hbridge Habs Hvue).
  destruct (readFile fs (candidatePath containingFile name)) as [text|] eqn:Hdisk;
    [|done].
  unfold getScriptKind, cachedScript, extensionOf, diskDocument.
  destruct (docs st !! candidatePath containingFile name) as [d|] eqn:Hd;
    intros [= <-]; cbn [resolvedFileName extension];
    rewrite Hvue', Hfs, Hd.
  - by case_bool_decide.
  - rewrite Hdisk, Hstring. destruct (jsDocuments_get _ _) as [d cache].
    simpl. by case_bool_decide.
Qed.

End ScriptKinds.

(** ** An update and the other files *)

Section Frame.
Context {E : Env}.
Implicit Types (st : State) (doc : TextDocument).

(** X20.  An update touches the bookkeeping of one path only: for every
    path other than that of the submitted document the tracked document,
    the version counter and the version string told to the service are
    what they were. *)
Theorem X20_update_leaves_other_paths st doc (fileName : string) :
  getNormalizedFileFsPath fileName ≠ getFileFsPath (uri doc) →
  docs (updateCurrentTextDocument st doc) !! getNormalizedFileFsPath fileName
  = docs st !! getNormalizedFileFsPath fileName
  ∧ versions (updateCurrentTextDocument st doc)
      !! getNormalizedFileFsPath fileName
    = versions st !! getNormalizedFileFsPath fileName
  ∧ getScriptVersion (updateCurrentTextDocument st doc) fileName
    = getScriptVersion st fileName.
Proof.
  intros Hother.
  assert (versions (updateCurrentTextDocument st doc)
            !! getNormalizedFileFsPath fileName
          = versions st !! getNormalizedFileFsPath fileName) as Hversions.
  { rewrite update_versions. destruct (documentChanged st doc); [|done].
    by rewrite lookup_insert_ne. }
  split_and!; [|done|].
  - rewrite update_docs. destruct (documentChanged st doc); [|done].
    by rewrite lookup_insert_ne.
  - unfold getScriptVersion. by rewrite Hversions.
Qed.

End Frame.

(** ** The editor's view of an imported file *)

Section TrackedImports.
Context {E : Env}.
Implicit Types (st : State) (fs : Disk).

(** X21.  The editor's view wins over the disk: a relative import of a
    mixed-content document that is on disk and tracked resolves to the
    candidate path with the dialect of the tracked entry, whatever the
    file on disk holds and whatever state the document cache is in, and
    the resolution leaves the host as it was. *)
Theorem X21_tracked_dialect_wins st fs (containingFile name : string)
    (d : TextDocument) :
  name ≠ bridge_moduleName →
  path_isAbsolute name = false →
  isVue name = true →
  fileExists fs (candidatePath containingFile name) = true →
  docs st !! candidatePath containingFile name = Some d →
  resolveModuleName st fs containingFile name
  = (Some {| resolvedFileName := candidatePath containingFile name;
             extension := extensionOf d |},
     st).
Proof. apply resolve_tracked_on_disk. Qed.

End TrackedImports.

(** * The further properties at work on the sample project *)

Example format_of_a :
  out_run
    (format (E:=Sample.env) (L:=SampleMore.service)
       SampleMore.formattingEdits initialSettings Sample.emptyProject
       Sample.disk Sample.docA SampleMore.wholeRange SampleMore.formatParams)
  = ([], Thrown).
Proof. by vm_compute. Qed.

Example configured_format_options :
  ∃ settings,
    configure initialSettings SampleMore.userOptions = Returned settings
    ∧ convertOptions SampleMore.formatParams (settings_format settings) 1
        !! "InsertSpaceBeforeFunctionParenthesis"
      = Some (VBool false)
    ∧ convertOptions SampleMore.formatParams (settings_format settings) 1
        !! "IndentSize"
      = Some (VNumber 2).
Proof. eexists. split; [done|]. by vm_compute. Qed.

Lemma sample_cacheGet_identity (cache : gmap string TextDocument)
    (doc : TextDocument) :
  uri (fst (Sample.cacheGet cache doc)) = uri doc
  ∧ version (fst (Sample.cacheGet cache doc)) = version doc.
Proof.
  unfold Sample.cacheGet.
  destruct (cache !! uri doc) as [entry|]; [|done].
  destruct (bool_decide (uri entry = uri doc)) eqn:Huri; [|done].
  destruct (bool_decide (version entry = version doc)) eqn:Hversion; [|done].
  apply bool_decide_eq_true in Huri, Hversion.
  by destruct (bool_decide (languageId entry = languageId doc)).
Qed.

Lemma sample_cacheKeepsIdentity : cacheKeepsIdentity (E:=Sample.env).
Proof. exact sample_cacheGet_identity. Qed.

Lemma sample_emptyProject_currentIsTracked :
  currentIsTracked (E:=Sample.env) Sample.emptyProject.
Proof. by intros cur. Qed.

Lemma sample_emptyProject_trackedVueInRoot :
  trackedVueInRoot Sample.emptyProject.
Proof. intros p d Hp. simpl in Hp. by rewrite lookup_empty in Hp. Qed.

Lemma sample_a_included :
  getFilePath (E:=Sample.env) (uri Sample.docA)
    ∈ getRootFileNames (LanguageService:=SampleMore.service)
        (updateCurrentTextDocument (E:=Sample.env) Sample.emptyProject
           Sample.docA) Sample.disk.
Proof. vm_compute. by left. Qed.

Lemma sample_c_included :
  getFilePath (E:=Sample.env) (uri SampleMore.docC)
    ∈ getRootFileNames (LanguageService:=SampleMore.service)
        (updateCurrentTextDocument (E:=Sample.env) Sample.emptyProject
           SampleMore.docC) Sample.disk.
Proof. vm_compute. by left. Qed.

Lemma sample_b_included :
  getFilePath (E:=Sample.env) (uri Sample.docB)
    ∈ getRootFileNames (LanguageService:=SampleMore.service)
        (updateCurrentTextDocument (E:=Sample.env) Sample.emptyProject
           Sample.docB) Sample.disk.
Proof. vm_compute. by left. Qed.

(** X1 at work: [a.vue] submitted twice to a fresh host. *)
Lemma X1_witness :
  updateCurrentTextDocument (E:=Sample.env)
    (updateCurrentTextDocument (E:=Sample.env) Sample.emptyProject Sample.docA)
    Sample.docA
  = updateCurrentTextDocument (E:=Sample.env) Sample.emptyProject Sample.docA.
Proof.
  exact (X1_update_twice_is_update_once (E:=Sample.env) Sample.emptyProject
           Sample.docA sample_cacheKeepsIdentity
           sample_emptyProject_currentIsTracked).
Defined.

(** X3 at work: [a.vue] stays tracked while [b.vue] is updated. *)
Lemma X3_witness :
  let st :=
    updateCurrentTextDocument (E:=Sample.env) Sample.emptyProject Sample.docA in
  is_Some (docs (session (E:=Sample.env) st [HostUpdate Sample.docB])
             !! Sample.aPath)
  ∧ (versionOf st Sample.aPath
     ≤ versionOf (session (E:=Sample.env) st [HostUpdate Sample.docB])
         Sample.aPath)%Z.
Proof.
  intros st.
  destruct (X3_tracking_is_permanent (E:=Sample.env) st
              [HostUpdate Sample.docB] Sample.aPath) as [Hdocs Hversions].
  split; [|exact Hversions].
  apply Hdocs. vm_compute. by eexists.
Defined.

(** X4 at work: the first update of [a.vue] passes the guard, and the
    version string changes. *)
Lemma X4_witness :
  Sample.aPath ≠ bridge_fileName (Env:=Sample.env)
  ∧ getNormalizedFileFsPath (E:=Sample.env) Sample.aPath
    = getFileFsPath (E:=Sample.env) (uri Sample.docA)
  ∧ (versionOf Sample.emptyProject
       (getFileFsPath (E:=Sample.env) (uri Sample.docA)) < MAX_SAFE)%Z
  ∧ (getScriptVersion (E:=Sample.env)
       (updateCurrentTextDocument (E:=Sample.env) Sample.emptyProject
          Sample.docA) Sample.aPath
     = getScriptVersion (E:=Sample.env) Sample.emptyProject Sample.aPath
     ↔ documentChanged Sample.emptyProject Sample.docA = false).
Proof.
  assert (Hbridge : Sample.aPath ≠ bridge_fileName (Env:=Sample.env))
    by (by vm_compute).
  assert (Hpath : getNormalizedFileFsPath (E:=Sample.env) Sample.aPath
                  = getFileFsPath (E:=Sample.env) (uri Sample.docA))
    by (by vm_compute).
  assert (Hsafe : (versionOf Sample.emptyProject
                     (getFileFsPath (E:=Sample.env) (uri Sample.docA))
                   < MAX_SAFE)%Z) by (by vm_compute).
  split_and!; [exact Hbridge|exact Hpath|exact Hsafe|].
  exact (X4_script_version_follows_update (E:=Sample.env) Sample.emptyProject
           Sample.docA Sample.aPath Hbridge Hpath Hsafe).
Defined.

(** X5 at work: after the update of [a.vue] its version is not ["0"],
    that of [b.vue] is. *)
Lemma X5_witness :
  let st := session (E:=Sample.env) Sample.emptyProject [HostUpdate Sample.docA] in
  Sample.bPath ≠ bridge_fileName (Env:=Sample.env)
  ∧ (getScriptVersion (E:=Sample.env) st Sample.bPath = "0"
     ↔ docs st !! getNormalizedFileFsPath (E:=Sample.env) Sample.bPath = None).
Proof.
  assert (Hbridge : Sample.bPath ≠ bridge_fileName (Env:=Sample.env))
    by (by vm_compute).
  split; [exact Hbridge|].
  exact (X5_version_zero_iff_untracked (E:=Sample.env) ∅ [] Sample.options
           [HostUpdate Sample.docA] Sample.bPath Hbridge).
Defined.

(** X6 at work: the snapshot of [a.vue] after its update. *)
Lemma X6_witness :
  ∃ cur,
    currentTextDocument
      (updateCurrentTextDocument (E:=Sample.env) Sample.emptyProject Sample.docA)
    = Some cur
    ∧ ∀ fs,
        snapshot_text
          (getScriptSnapshot (E:=Sample.env)
             (updateCurrentTextDocument (E:=Sample.env) Sample.emptyProject
                Sample.docA) fs Sample.aPath)
        = if isVue (Env:=Sample.env) Sample.aPath
          then parseVue (Env:=Sample.env) (getText cur) else getText cur.
Proof.
  refine (X6_snapshot_after_update (E:=Sample.env) Sample.emptyProject
            Sample.docA Sample.aPath sample_emptyProject_currentIsTracked _ _);
    by vm_compute.
Defined.

(** X8 at work: two mixed-content files opened in a project whose
    configuration found none. *)
Lemma X8_witness :
  ∃ added : list string,
    files (session (E:=Sample.env) Sample.emptyProject
             [HostUpdate Sample.docA; HostUpdate Sample.docB])
    = [] ++ added
    ∧ NoDup added
    ∧ ∀ p, p ∈ added →
        endsWith p ".vue" = true
        ∧ is_Some (docs (session (E:=Sample.env) Sample.emptyProject
                           [HostUpdate Sample.docA; HostUpdate Sample.docB])
                     !! p).
Proof.
  exact (X8_root_files_shape (E:=Sample.env) ∅ [] Sample.options
           [HostUpdate Sample.docA; HostUpdate Sample.docB]
           sample_cacheKeepsIdentity).
Defined.

(** X9 at work: two documents with untyped scripts. *)
Lemma X9_witness :
  let st :=
    session (E:=Sample.env) Sample.emptyProject
      [HostUpdate Sample.docA; HostUpdate Sample.docB_js] in
  semanticCacheCleanups st = 0%nat
  ∧ compilerOptions st = {| allowNonTsExtensions := true; allowJs := true |}.
Proof.
  refine (X9_one_dialect_never_invalidates (E:=Sample.env) "javascript" ∅ []
            Sample.options [HostUpdate Sample.docA; HostUpdate Sample.docB_js]
            _).
  simpl. split_and!; [by intros _; vm_compute|by intros _; vm_compute|done].
Defined.

(** X11 at work: the first validation of [a.vue], by a service that has
    no diagnostic for it and by one that has. *)
Lemma X11_witness :
  out_run (doValidation (E:=Sample.env) (L:=Sample.service)
             Sample.emptyProject Sample.disk Sample.docA)
  = ([CallGetProgram; CallGetSyntacticDiagnostics "/p/a.vue";
      CallGetSemanticDiagnostics "/p/a.vue"],
     Returned [])
  ∧ out_run (doValidation (E:=Sample.env) (L:=SampleMore.service)
               Sample.emptyProject Sample.disk Sample.docA)
    = ([CallGetProgram; CallGetSyntacticDiagnostics "/p/a.vue";
        CallGetSemanticDiagnostics "/p/a.vue"],
       Thrown).
Proof.
  split.
  - refine (X11_vue_document_passes_gate (E:=Sample.env) (L:=Sample.service)
              Sample.emptyProject Sample.disk Sample.docA
              sample_emptyProject_trackedVueInRoot _ _ _); by vm_compute.
  - refine (X11_vue_document_passes_gate (E:=Sample.env)
              (L:=SampleMore.service) Sample.emptyProject Sample.disk
              Sample.docA sample_emptyProject_trackedVueInRoot _ _ _);
      by vm_compute.
Defined.

(** X12 at work: completion and hover for the root file [a.vue]. *)
Lemma X12_witness :
  out_run (doComplete (E:=Sample.env) (L:=SampleMore.service)
             Sample.emptyProject Sample.disk Sample.docA SampleMore.position)
  = ([CallGetProgram], Thrown)
  ∧ out_run (doHover (E:=Sample.env) (L:=SampleMore.service)
               Sample.emptyProject Sample.disk Sample.docA
               SampleMore.position)
    = ([CallGetProgram], Thrown).
Proof.
  destruct (X12_position_requests_throw (E:=Sample.env)
              (L:=SampleMore.service) Sample.emptyProject Sample.disk
              Sample.docA SampleMore.position sample_a_included)
    as (Hcomplete & Hhover & _).
  split; [exact Hcomplete|exact Hhover].
Defined.

(** X13 at work: an item without [data], resolved for a root file. *)
Lemma X13_witness :
  out_result (doResolve (E:=Sample.env) (L:=SampleMore.service)
                Sample.emptyProject Sample.disk Sample.docA
                (NULL_COMPLETION (LanguageService:=SampleMore.service)))
  = Thrown
  ∧ out_calls (doResolve (E:=Sample.env) (L:=SampleMore.service)
                 Sample.emptyProject Sample.disk Sample.docA
                 (NULL_COMPLETION (LanguageService:=SampleMore.service)))
    = [CallGetProgram].
Proof.
  destruct (X13_doResolve_throws_iff (E:=Sample.env) (L:=SampleMore.service)
              Sample.emptyProject Sample.disk Sample.docA
              (NULL_COMPLETION (LanguageService:=SampleMore.service)))
    as [Hiff Hcalls].
  assert (Hthrown : out_result
                      (doResolve (E:=Sample.env) (L:=SampleMore.service)
                         Sample.emptyProject Sample.disk Sample.docA
                         (NULL_COMPLETION
                            (LanguageService:=SampleMore.service)))
                    = Thrown).
  { apply Hiff. split; [exact sample_a_included|reflexivity]. }
  split; [exact Hthrown|exact (Hcalls Hthrown)].
Defined.

(** X14 at work: the definition asked for in the root file [a.vue]. *)
Lemma X14_witness :
  out_run (findDefinition (E:=Sample.env) (L:=SampleMore.service)
             Sample.emptyProject Sample.disk Sample.docA SampleMore.position)
  = ([CallGetProgram], Thrown).
Proof.
  exact (proj1 (X14_definition_and_references_throw (E:=Sample.env)
                  (L:=SampleMore.service) Sample.emptyProject Sample.disk
                  Sample.docA SampleMore.position sample_a_included)).
Defined.

(** X15 at work: the script of [c.vue] declares nothing and gets the
    empty list; that of [a.vue] declares a class, and the request
    throws. *)
Lemma X15_witness :
  out_run (findDocumentSymbols (E:=Sample.env) (L:=SampleMore.service)
             Sample.emptyProject Sample.disk SampleMore.docC)
  = ([CallGetProgram; CallGetNavigationBarItems "/p/c.vue"], Returned [])
  ∧ out_run (findDocumentSymbols (E:=Sample.env) (L:=SampleMore.service)
               Sample.emptyProject Sample.disk Sample.docA)
    = ([CallGetProgram; CallGetNavigationBarItems "/p/a.vue"], Thrown).
Proof.
  split.
  - refine (proj2 (X15_no_symbol_is_returned (E:=Sample.env)
                     (L:=SampleMore.service) Sample.emptyProject Sample.disk
                     SampleMore.docC)
              [SampleMore.emptyTree] sample_c_included _).
    by vm_compute.
  - refine (proj2 (X15_no_symbol_is_returned (E:=Sample.env)
                     (L:=SampleMore.service) Sample.emptyProject Sample.disk
                     Sample.docA)
              [SampleMore.tree] sample_a_included _).
    by vm_compute.
Defined.

(** X16 at work: the tree of [b.vue] has a method without a span. *)
Lemma X16_witness :
  out_result (findDocumentSymbols (E:=Sample.env) (L:=SampleMore.service)
                Sample.emptyProject Sample.disk Sample.docB)
  = Thrown.
Proof.
  refine (X16_spanless_item_throws (E:=Sample.env) (L:=SampleMore.service)
            Sample.emptyProject Sample.disk Sample.docB
            [SampleMore.brokenTree] sample_b_included _ _).
  - by vm_compute.
  - simpl. do 2 right. by left.
Defined.

(** X19 at work: [./b.vue], typed on disk, imported from [a.vue]. *)
Lemma X19_witness :
  fst (resolveModuleName (E:=Sample.env) Sample.emptyProject Sample.disk
         Sample.aPath "./b.vue")
  = Some {| resolvedFileName := Sample.bPath; extension := Ts |}
  ∧ fst (getScriptKind (E:=Sample.env) SampleMore.scriptKindFromFileName
           SampleMore.unreadable Sample.emptyProject Sample.disk Sample.bPath)
    = Returned (AnswerScriptKind ScriptKindTS).
Proof.
  assert (Hres : fst (resolveModuleName (E:=Sample.env) Sample.emptyProject
                        Sample.disk Sample.aPath "./b.vue")
                 = Some {| resolvedFileName := Sample.bPath;
                           extension := Ts |}) by (by vm_compute).
  split; [exact Hres|].
  refine (X19_script_kind_agrees_with_resolution (E:=Sample.env)
            SampleMore.scriptKindFromFileName SampleMore.unreadable
            Sample.emptyProject Sample.disk Sample.aPath "./b.vue" _
            _ _ _ _ _ _ Hres); by vm_compute.
Defined.

(** X20 at work: the update of [a.vue] as seen from [b.vue]. *)
Lemma X20_witness :
  let st :=
    updateCurrentTextDocument (E:=Sample.env) Sample.emptyProject Sample.docB in
  getNormalizedFileFsPath (E:=Sample.env) Sample.bPath
    ≠ getFileFsPath (E:=Sample.env) (uri Sample.docA)
  ∧ getScriptVersion (E:=Sample.env)
      (updateCurrentTextDocument (E:=Sample.env) st Sample.docA) Sample.bPath
    = getScriptVersion (E:=Sample.env) st Sample.bPath.
Proof.
  intros st.
  assert (Hother : getNormalizedFileFsPath (E:=Sample.env) Sample.bPath
                   ≠ getFileFsPath (E:=Sample.env) (uri Sample.docA))
    by (by vm_compute).
  split; [exact Hother|].
  exact (proj2 (proj2 (X20_update_leaves_other_paths (E:=Sample.env) st
                         Sample.docA Sample.bPath Hother))).
Defined.

(** X21 at work: on disk [b.vue] has a typed script; the editor's copy,
    once tracked, has an untyped one and decides. *)
Lemma X21_witness :
  let tracked :=
    updateCurrentTextDocument (E:=Sample.env) Sample.emptyProject
      Sample.docB_js in
  readFile Sample.disk Sample.bPath = Some Sample.bText
  ∧ resolveModuleName (E:=Sample.env) tracked Sample.disk Sample.aPath
      "./b.vue"
    = (Some {| resolvedFileName := Sample.bPath; extension := Js |}, tracked).
Proof.
  intros tracked. split; [by vm_compute|].
  refine (X21_tracked_dialect_wins (E:=Sample.env) tracked Sample.disk
            Sample.aPath "./b.vue" (Sample.embeddedScript Sample.docB_js)
            _ _ _ _ _); by vm_compute.
Defined.
